(** * The certificate commands of [command/ca/certificate.go]

    A shallow embedding of the two actions of the file,
    [newCertificateAction] and [signCertificateAction], and of their helpers
    [signCertificateTokenFlow], [signCertificateOfflineFlow] and
    [signCertificateRequest], together with the properties the specification
    states about them.

    The Go functions are sequences of calls into other packages, each
    followed by [if err != nil { return err }].  They are embedded in a
    state-and-error monad: the state carries the outside world (file system,
    network, clock, terminal) and a chronological log of every call into a
    collaborator, so that statements such as "no network call is attempted"
    or "the file is written with mode 0600" are statements about the log. *)

From stdpp Require Import base option list gmap strings.
From Stdlib Require Import ZArith NArith Ascii String.

Local Open Scope string_scope.
Local Open Scope Z_scope.
Local Open Scope list_scope.

(** ** Data *)

(** [time.Time], as the number of nanoseconds elapsed since Go's zero
    instant: the zero value, which the API reads as "not set", is [0]. *)
Definition Time : Type := Z.

Definition Time_IsZero (t : Time) : bool := bool_decide (t = 0).

(** [[]byte] *)
Definition bytes : Type := string.

(** [os.FileMode] *)
Definition FileMode : Type := N.

(** The octal literal [0600]. *)
Definition mode_0600 : FileMode := (6 * 8 * 8 + 0 * 8 + 0)%N.

(** The part of [x509.CertificateRequest] that the commands read:
    [Subject.CommonName] and the alternative names. *)
Record CertificateRequest : Type := {
  Subject_CommonName : string;
  DNSNames : list string;
  IPAddresses : list string
}.

(** [x509.Certificate], by its DER bytes. *)
Record Certificate : Type := { cert_Raw : bytes }.

(** A private key as returned by [ca.CreateSignRequest]. *)
Record PrivateKey : Type := { key_Raw : bytes }.

(** [pem.Block] *)
Record pem_Block : Type := { block_Type : string; block_Bytes : bytes }.

(** [api.SignRequest] *)
Record SignRequest : Type := {
  CsrPEM : CertificateRequest;
  OTT : string;
  NotBefore : Time;
  NotAfter : Time
}.

(** [api.SignResponse]: [ServerPEM.Certificate] and [CaPEM.Certificate]. *)
Record SignResponse : Type := {
  ServerPEM : Certificate;
  CaPEM : Certificate
}.

(** [tokenClaims]: the [sha] claim and, of the embedded [jose.Claims], the
    two fields that are read. *)
Record tokenClaims : Type := {
  SHA : string;
  Subject : string;
  Audience : list string
}.

(** The dynamic type of the value [pemutil.Read] returns as [interface{}]. *)
Inductive PEMObject : Type :=
  | PEM_CertificateRequest (csr : CertificateRequest)
  | PEM_Certificate (crt : Certificate)
  | PEM_PrivateKey (key : PrivateKey)
  | PEM_PublicKey (der : bytes).

(** [ca.ClientOption], by the constructor that built it. *)
Inductive ClientOption : Type :=
  | WithRootSHA256 (sum : string)
  | WithRootFile (filename : string).

(** A [*ca.Client] is identified by the arguments [ca.NewClient] built it
    from; whatever else it holds lives in the world. *)
Record Client : Type := {
  client_endpoint : string;
  client_options : list ClientOption
}.

(** An [*offlineCA] is identified by the configuration file it was started
    from. *)
Record offlineCA : Type := { offline_config : string }.

(** [*cli.Context]: the positional arguments and the flags by name. *)
Record Context : Type := {
  ctx_args : list string;
  ctx_strings : gmap string string;
  ctx_bools : gmap string bool;
  ctx_slices : gmap string (list string)
}.

(** [ctx.Args()] and [args.Get(n)]: the empty string when out of range. *)
Definition Args (ctx : Context) : list string := ctx_args ctx.
Definition Get (args : list string) (n : nat) : string := default "" (args !! n).

(** [ctx.String], [ctx.Bool], [ctx.StringSlice]: the zero value when the flag
    is not set. *)
Definition ctx_String (ctx : Context) (name : string) : string :=
  default "" (ctx_strings ctx !! name).
Definition ctx_Bool (ctx : Context) (name : string) : bool :=
  default false (ctx_bools ctx !! name).
Definition ctx_StringSlice (ctx : Context) (name : string) : list string :=
  default [] (ctx_slices ctx !! name).

(** [l[i]] on a slice of strings; the commands only index in range (Go
    panics otherwise), so the default is never read. *)
Definition index (l : list string) (i : nat) : string := default "" (l !! i).

(** [len(s)] on a Go string: its number of bytes. *)
Definition len (s : string) : nat := String.length s.

(** [strings.HasPrefix(s, prefix)] *)
Definition strings_HasPrefix (s pre : string) : bool := String.prefix pre s.

(** The context with the string flag [name] set to [value]. *)
Definition set_String (ctx : Context) (name value : string) : Context :=
  {| ctx_args := ctx_args ctx;
     ctx_strings := <[name := value]> (ctx_strings ctx);
     ctx_bools := ctx_bools ctx;
     ctx_slices := ctx_slices ctx |}.

(** ** Errors *)

(** An error that a collaborator returned; the commands never look inside. *)
Definition ExtError : Type := string.

(** The errors the commands return.  Those built by a function of package
    [errs] are named after that function and keep the flag names it was
    given (the context argument only serves the wording of the message);
    those built by [errors.Errorf] are named after their message and keep
    the formatted values. *)
Inductive Error : Type :=
  | IncompatibleFlagWithFlag (flag withFlag : string)
  | MutuallyExclusiveFlags (flag1 flag2 : string)
  | RequiredUnlessFlag (flag unlessFlag : string)
  | RequiredFlag (flag : string)
  | InvalidFlagValue (flag value options : string)
  | FileError (err : ExtError) (filename : string)
  (** "token subject '%s' and hostname '%s' do not match" *)
  | HostnameMismatch (commonName hostname : string)
  (** "token subject '%s' and CSR CommonName '%s' do not match" *)
  | CommonNameMismatch (subject commonName : string)
  (** "error parsing %s: file is not a certificate request" *)
  | NotACertificateRequest (csrFile : string)
  (** [errors.Wrap(err, msg)] *)
  | Wrap (err : ExtError) (msg : string)
  (** an error of a collaborator, returned as it is *)
  | External (err : ExtError).

(** The names the specification gives to these errors. *)
Definition MutuallyExclusiveOptionsError (e : Error) : Prop :=
  ∃ f1 f2, e = MutuallyExclusiveFlags f1 f2.

Definition SubjectMismatchError (e : Error) : Prop :=
  (∃ cn h, e = HostnameMismatch cn h) ∨ (∃ s cn, e = CommonNameMismatch s cn).

Definition ConfigurationError (e : Error) : Prop :=
  (∃ f1 f2, e = IncompatibleFlagWithFlag f1 f2)
  ∨ (∃ f v o, e = InvalidFlagValue f v o)
  ∨ (∃ f, e = RequiredFlag f)
  ∨ (∃ f1 f2, e = RequiredUnlessFlag f1 f2).

Definition NotACertificateRequestError (e : Error) : Prop :=
  ∃ f, e = NotACertificateRequest f.

(** ** Calls into collaborators *)

(** One entry of the log per call that reaches outside the process. *)
Inductive Event : Type :=
  | EvStat (name : string)
  | EvPrompt (label : string)
  | EvNewTokenFlow (subject : string) (sans : list string)
      (caURL root : string) (notBefore notAfter : Time)
  | EvCreateSignRequest (ott : string)
  | EvRead (filename : string)
  | EvNewClient (endpoint : string) (opts : list ClientOption)
  | EvSign (client : Client) (req : SignRequest)
  | EvNewOfflineCA (configFile : string)
  | EvGenerateToken (ca : offlineCA) (subject : string)
  | EvOfflineSign (ca : offlineCA) (req : SignRequest)
  | EvWriteFile (filename : string) (data : bytes) (perm : FileMode)
  | EvSerializeToFile (key : PrivateKey) (filename : string) (perm : FileMode)
  | EvPrintSelected (label value : string).

(** The calls that contact the authority (or the token issuer) over the
    network. *)
Definition is_network (ev : Event) : bool :=
  match ev with
  | EvNewTokenFlow _ _ _ _ _ _ | EvNewClient _ _ | EvSign _ _ => true
  | _ => false
  end.

(** The call that generates a key pair. *)
Definition is_keygen (ev : Event) : bool :=
  match ev with EvCreateSignRequest _ => true | _ => false end.

(** The calls that write an output artifact. *)
Definition is_write (ev : Event) : bool :=
  match ev with
  | EvWriteFile _ _ _ | EvSerializeToFile _ _ _ => true
  | _ => false
  end.

(** The calls of the exchange with an authority, remote or local. *)
Definition is_exchange (ev : Event) : bool :=
  match ev with
  | EvNewClient _ _ | EvSign _ _ | EvOfflineSign _ _ => true
  | _ => false
  end.

(** The functions of other packages, and of the files of package [ca] other
    than [certificate.go], that the commands call.  [World] is everything
    outside the process they may read or change. *)
Class Collaborators : Type := {
  World : Type;
  JSONWebToken : Type;
  (* pure *)
  strings_ToLower : string → string;
  errs_NumberOfArguments : Context → nat → option ExtError;
  jose_ParseSigned : string → ExtError + JSONWebToken;
  UnsafeClaimsWithoutVerification : JSONWebToken → ExtError + tokenClaims;
  pemutil_Serialize : Certificate → ExtError + pem_Block;
  pem_EncodeToMemory : pem_Block → bytes;
  (* reading the world *)
  pki_GetRootCAPath : World → string;
  flags_ParseTimeOrDuration : World → string → Time * bool;
  parseValidity : Context → World → ExtError + Time * Time;
  (* acting on the world *)
  os_Stat : string → World → (ExtError + unit) * World;
  ui_Prompt : string → World → (ExtError + string) * World;
  newTokenFlow : Context → string → list string → string → string →
                 Time → Time → World → (ExtError + string) * World;
  ca_CreateSignRequest : string → World →
                         (ExtError + SignRequest * PrivateKey) * World;
  pemutil_Read : string → World → (ExtError + PEMObject) * World;
  ca_NewClient : string → list ClientOption → World → (ExtError + unit) * World;
  client_Sign : Client → SignRequest → World → (ExtError + SignResponse) * World;
  newOfflineCA : string → World → (ExtError + unit) * World;
  offlineCA_GenerateToken : offlineCA → Context → string → World →
                            (ExtError + string) * World;
  offlineCA_Sign : offlineCA → SignRequest → World →
                   (ExtError + SignResponse) * World;
  utils_WriteFile : string → bytes → FileMode → World → (ExtError + unit) * World;
  pemutil_Serialize_ToFile : PrivateKey → string → FileMode → World →
                             (ExtError + pem_Block) * World;
  ui_PrintSelected : string → string → World → World
}.

Section Commands.
Context `{C : Collaborators}.

(** The world and the log of calls so far, oldest first. *)
Record State : Type := { world : World; trace : list Event }.

(** A computation: an error or a value, and the state it leaves. *)
Definition M (A : Type) : Type := State → (Error + A) * State.

#[export] Instance M_ret : MRet M := λ A a s, (inr a, s).
#[export] Instance M_bind : MBind M := λ A B k m s,
  match m s with
  | (inl e, s') => (inl e, s')
  | (inr a, s') => k a s'
  end.

(** [return err] *)
Definition fail {A : Type} (e : Error) : M A := λ s, (inl e, s).

(** A value read off the world. *)
Definition peek {A : Type} (f : World → A) : M A := λ s, (inr (f (world s)), s).

(** A pure call that may fail; [wrap] is what the caller does to the error
    before returning it. *)
Definition check {A : Type} (wrap : ExtError → Error) (r : ExtError + A) : M A :=
  match r with
  | inl e => fail (wrap e)
  | inr a => mret a
  end.

(** A logged call that may fail and may change the world. *)
Definition attempt {A : Type} (wrap : ExtError → Error) (ev : Event)
    (f : World → (ExtError + A) * World) : M A :=
  λ s, let '(r, w) := f (world s) in
       (match r with inl e => inl (wrap e) | inr a => inr a end,
        {| world := w; trace := trace s ++ [ev] |}).

Definition call {A : Type} (ev : Event)
    (f : World → (ExtError + A) * World) : M A := attempt External ev f.

(** [ui.PrintSelected(label, value)] *)
Definition PrintSelected (label value : string) : M unit :=
  λ s, (inr (), {| world := ui_PrintSelected label value (world s);
                   trace := trace s ++ [EvPrintSelected label value] |}).

(** ** The commands *)

(** [flags.ParseTimeOrDuration(ctx.String(name))], with the error the callers
    return when it does not parse. *)
Definition parseFlagTime (ctx : Context) (name : string) : M Time :=
  '(t, ok) ← peek (λ w, flags_ParseTimeOrDuration w (ctx_String ctx name));
  if negb ok then fail (InvalidFlagValue name (ctx_String ctx name) "")
  else mret t.

Definition signCertificateTokenFlow (ctx : Context) (subject : string) : M string :=
  let sans := ctx_StringSlice ctx "san" in
  let caURL := ctx_String ctx "ca-url" in
  if bool_decide (len caURL = 0%nat) then fail (RequiredUnlessFlag "ca-url" "token")
  else
    root ← (let root := ctx_String ctx "root" in
            if bool_decide (len root = 0%nat) then
              root ← peek pki_GetRootCAPath;
              attempt (λ _, RequiredUnlessFlag "root" "token") (EvStat root) (os_Stat root);;
              mret root
            else mret root);
    (* parse times or durations *)
    notBefore ← parseFlagTime ctx "not-before";
    notAfter ← parseFlagTime ctx "not-after";
    subject ← (if bool_decide (subject = "") then
                 let label := "What DNS names or IP addresses would you like to use? (e.g. internal.smallstep.com)" in
                 call (EvPrompt label) (ui_Prompt label)
               else mret subject);
    call (EvNewTokenFlow subject sans caURL root notBefore notAfter)
         (newTokenFlow ctx subject sans caURL root notBefore notAfter).

Definition signCertificateRequest (ctx : Context) (token : string)
    (csr : CertificateRequest) (crtFile : string) : M unit :=
  let root := ctx_String ctx "root" in
  let caURL := ctx_String ctx "ca-url" in
  (* parse times or durations *)
  notBefore ← parseFlagTime ctx "not-before";
  notAfter ← parseFlagTime ctx "not-after";
  tok ← check (λ e, Wrap e "error parsing flag '--token'") (jose_ParseSigned token);
  claims ← check (λ e, Wrap e "error parsing flag '--token'")
                 (UnsafeClaimsWithoutVerification tok);
  if negb (bool_decide (strings_ToLower (Subject claims)
                        = strings_ToLower (Subject_CommonName csr)))
  then fail (CommonNameMismatch (Subject claims) (Subject_CommonName csr))
  else
    (* Prepare client for bootstrap or provisioning tokens *)
    '(caURL, options) ←
      (if bool_decide (0 < len (SHA claims))%nat
          && bool_decide (0 < List.length (Audience claims))%nat
          && strings_HasPrefix (strings_ToLower (index (Audience claims) 0)) "http"
       then mret (index (Audience claims) 0, [WithRootSHA256 (SHA claims)])
       else
         if bool_decide (len caURL = 0%nat) then fail (RequiredFlag "ca-url")
         else
           root ← (if bool_decide (len root = 0%nat) then
                     root ← peek pki_GetRootCAPath;
                     attempt (λ _, RequiredFlag "root") (EvStat root) (os_Stat root);;
                     mret root
                   else mret root);
           mret (caURL, [WithRootFile root]));
    PrintSelected "CA" caURL;;
    call (EvNewClient caURL options) (ca_NewClient caURL options);;
    let client := {| client_endpoint := caURL; client_options := options |} in
    let req := {| CsrPEM := csr; OTT := token;
                  NotBefore := notBefore; NotAfter := notAfter |} in
    resp ← call (EvSign client req) (client_Sign client req);
    serverBlock ← check External (pemutil_Serialize (ServerPEM resp));
    caBlock ← check External (pemutil_Serialize (CaPEM resp));
    let data := pem_EncodeToMemory serverBlock +:+ pem_EncodeToMemory caBlock in
    call (EvWriteFile crtFile data mode_0600) (utils_WriteFile crtFile data mode_0600).

Definition signCertificateOfflineFlow (ctx : Context)
    (subject crtFile keyFile : string) : M unit :=
  let configFile := ctx_String ctx "ca-config" in
  if bool_decide (configFile = "") then fail (InvalidFlagValue "ca-config" "" "")
  else
    call (EvNewOfflineCA configFile) (newOfflineCA configFile);;
    let offlineCA := {| offline_config := configFile |} in
    token ← call (EvGenerateToken offlineCA subject)
                 (offlineCA_GenerateToken offlineCA ctx subject);
    '(req, pk) ← call (EvCreateSignRequest token) (ca_CreateSignRequest token);
    (* add validity if used *)
    validity ← peek (parseValidity ctx);
    '(notBefore, notAfter) ← check External validity;
    let req := {| CsrPEM := CsrPEM req; OTT := OTT req;
                  NotBefore := notBefore; NotAfter := notAfter |} in
    resp ← call (EvOfflineSign offlineCA req) (offlineCA_Sign offlineCA req);
    (* Save files *)
    serverBlock ← check External (pemutil_Serialize (ServerPEM resp));
    caBlock ← check External (pemutil_Serialize (CaPEM resp));
    let data := pem_EncodeToMemory serverBlock +:+ pem_EncodeToMemory caBlock in
    attempt (λ e, FileError e crtFile) (EvWriteFile crtFile data mode_0600)
        (utils_WriteFile crtFile data mode_0600);;
    call (EvSerializeToFile pk keyFile mode_0600)
         (pemutil_Serialize_ToFile pk keyFile mode_0600);;
    PrintSelected "Certificate" crtFile;;
    PrintSelected "Private Key" keyFile.

Definition newCertificateAction (ctx : Context) : M unit :=
  check External (from_option inl (inr ()) (errs_NumberOfArguments ctx 3));;
  let args := Args ctx in
  let hostname := Get args 0 in
  let crtFile := Get args 1 in
  let keyFile := Get args 2 in
  let token := ctx_String ctx "token" in
  let offline := ctx_Bool ctx "offline" in
  (* offline and token are incompatible because the token is generated before
     the start of the offline CA. *)
  if offline && bool_decide (len token ≠ 0%nat)
  then fail (IncompatibleFlagWithFlag "offline" "token")
  else
    (* Use offline flow *)
    if offline then signCertificateOfflineFlow ctx hostname crtFile keyFile
    else
      (* Use online flow *)
      token ← (if bool_decide (len token = 0%nat) then
                 (* Start token flow *)
                 signCertificateTokenFlow ctx hostname
               else if bool_decide (0 < List.length (ctx_StringSlice ctx "san"))%nat
                    then fail (MutuallyExclusiveFlags "token" "san")
                    else mret token);
      '(req, pk) ← call (EvCreateSignRequest token) (ca_CreateSignRequest token);
      if negb (bool_decide (strings_ToLower hostname
                            = strings_ToLower (Subject_CommonName (CsrPEM req))))
      then fail (HostnameMismatch (Subject_CommonName (CsrPEM req)) hostname)
      else
        signCertificateRequest ctx token (CsrPEM req) crtFile;;
        call (EvSerializeToFile pk keyFile mode_0600)
             (pemutil_Serialize_ToFile pk keyFile mode_0600);;
        PrintSelected "Certificate" crtFile;;
        PrintSelected "Private Key" keyFile.

Definition signCertificateAction (ctx : Context) : M unit :=
  check External (from_option inl (inr ()) (errs_NumberOfArguments ctx 2));;
  let args := Args ctx in
  let csrFile := Get args 0 in
  let crtFile := Get args 1 in
  csrInt ← call (EvRead csrFile) (pemutil_Read csrFile);
  match csrInt with
  | PEM_CertificateRequest csr =>
      let token := ctx_String ctx "token" in
      token ← (if bool_decide (len token = 0%nat) then
                 (* Start token flow using common name as the hostname *)
                 signCertificateTokenFlow ctx (Subject_CommonName csr)
               else mret token);
      signCertificateRequest ctx token csr crtFile;;
      PrintSelected "Certificate" crtFile
  | _ => fail (NotACertificateRequest csrFile)
  end.

(** ** Vocabulary of the specification *)

(** Two names are equal case-insensitively when their lower-case forms are
    equal. *)
Definition equal_ignoring_case (a b : string) : Prop :=
  strings_ToLower a = strings_ToLower b.

(** A string is HTTP(S)-looking when its lower-case form starts with
    [http]. *)
Definition looks_like_http (url : string) : Prop :=
  strings_HasPrefix (strings_ToLower url) "http" = true.

(** A run that started in [s] and ended in [s'] made the calls [evs], in
    this order. *)
Definition calls (s s' : State) (evs : list Event) : Prop :=
  trace s' = trace s ++ evs.

(** The validity bounds of a request are ordered when both are set. *)
Definition validity_ordered (req : SignRequest) : Prop :=
  Time_IsZero (NotBefore req) = false →
  Time_IsZero (NotAfter req) = false →
  NotBefore req ≤ NotAfter req.

(** The certificate file: the PEM block of the leaf certificate followed by
    the PEM block of the certificate of the authority. *)
Definition certificate_chain (resp : SignResponse) (data : bytes) : Prop :=
  ∃ serverBlock caBlock,
    pemutil_Serialize (ServerPEM resp) = inr serverBlock
    ∧ pemutil_Serialize (CaPEM resp) = inr caBlock
    ∧ data = pem_EncodeToMemory serverBlock +:+ pem_EncodeToMemory caBlock.

(** What the new-certificate operation does once the identity check has
    passed: sign, write the key, report. *)
Definition after_identity_check (ctx : Context) (token : string)
    (req : SignRequest) (pk : PrivateKey) : M unit :=
  signCertificateRequest ctx token (CsrPEM req) (Get (Args ctx) 1);;
  call (EvSerializeToFile pk (Get (Args ctx) 2) mode_0600)
       (pemutil_Serialize_ToFile pk (Get (Args ctx) 2) mode_0600);;
  PrintSelected "Certificate" (Get (Args ctx) 1);;
  PrintSelected "Private Key" (Get (Args ctx) 2).

(** A call made in pinned mode: no look-up of a root file, and the
    authority is reached at [url] with the pin [sha] as only option. *)
Definition pinned_call (url sha : string) (ev : Event) : Prop :=
  match ev with
  | EvStat _ => False
  | EvNewClient endpoint opts => endpoint = url ∧ opts = [WithRootSHA256 sha]
  | EvSign client _ =>
      client = {| client_endpoint := url; client_options := [WithRootSHA256 sha] |}
  | _ => True
  end.

(** The response [resp] was returned, during the calls [evs], by the
    authority: the remote one or the local one. *)
Definition issued_in (evs : list Event) (resp : SignResponse) : Prop :=
  ∃ req w w',
    (∃ client, EvSign client req ∈ evs
               ∧ client_Sign client req w = (inr resp, w'))
    ∨ (∃ ca, EvOfflineSign ca req ∈ evs
             ∧ offlineCA_Sign ca req w = (inr resp, w')).

(** The key [pk] was generated during the calls [evs]. *)
Definition generated_in (evs : list Event) (pk : PrivateKey) : Prop :=
  ∃ token req w w',
    EvCreateSignRequest token ∈ evs
    ∧ ca_CreateSignRequest token w = (inr (req, pk), w').

(** Lines 157 to 168 of the new-certificate operation leave the token
    [token] and the state [s']: the explicit token with no call made, or the
    token that the token flow returned. *)
Definition token_obtained (ctx : Context) (s : State) (token : string)
    (s' : State) : Prop :=
  (len (ctx_String ctx "token") ≠ 0%nat
   ∧ ctx_StringSlice ctx "san" = []
   ∧ token = ctx_String ctx "token" ∧ s' = s)
  ∨ (len (ctx_String ctx "token") = 0%nat
     ∧ signCertificateTokenFlow ctx (Get (Args ctx) 0) s = (inr token, s')).

(** The bounds of a request sent to the remote authority are the values
    that the two validity flags resolve to. *)
Definition bounds_as_flags (ctx : Context) (w : World) (ev : Event) : Prop :=
  match ev with
  | EvSign _ req =>
      flags_ParseTimeOrDuration w (ctx_String ctx "not-before") = (NotBefore req, true)
      ∧ flags_ParseTimeOrDuration w (ctx_String ctx "not-after") = (NotAfter req, true)
  | _ => True
  end.

(** The bounds of a request handed to the local authority are the pair
    that [parseValidity] returned. *)
Definition bounds_as_parsed (ctx : Context) (ev : Event) : Prop :=
  match ev with
  | EvOfflineSign _ req =>
      ∃ w, parseValidity ctx w = inr (NotBefore req, NotAfter req)
  | _ => True
  end.

(** ** Vocabulary of the further properties *)

(** The calls that ask an authority, remote or local, to sign. *)
Definition is_signing (ev : Event) : bool :=
  match ev with EvSign _ _ | EvOfflineSign _ _ => true | _ => false end.

(** The calls of the token flow that reach a person or the token issuer. *)
Definition is_token_flow (ev : Event) : bool :=
  match ev with EvPrompt _ | EvNewTokenFlow _ _ _ _ _ _ => true | _ => false end.

(** The claims do not select pinned mode: no fingerprint, no audience, or a
    first audience entry that is not HTTP(S)-looking. *)
Definition not_pinned (claims : tokenClaims) : Prop :=
  SHA claims = ""
  ∨ Audience claims = []
  ∨ ∃ url audience, Audience claims = url :: audience ∧ ¬ looks_like_http url.

(** The root file of file mode: the [--root] flag or, when it is empty, the
    default path. *)
Definition root_or_default (ctx : Context) (w : World) : string :=
  if bool_decide (ctx_String ctx "root" = "") then pki_GetRootCAPath w
  else ctx_String ctx "root".

(** A call made in file mode: the only file looked up is the default root
    path, and only when [--root] is empty; the authority is reached at
    [--ca-url], which is not empty, with the root file as only option. *)
Definition file_call (ctx : Context) (w : World) (ev : Event) : Prop :=
  match ev with
  | EvStat name => ctx_String ctx "root" = "" ∧ name = pki_GetRootCAPath w
  | EvNewClient endpoint opts =>
      endpoint = ctx_String ctx "ca-url" ∧ endpoint ≠ ""
      ∧ opts = [WithRootFile (root_or_default ctx w)]
  | EvSign client _ =>
      client = {| client_endpoint := ctx_String ctx "ca-url";
                  client_options := [WithRootFile (root_or_default ctx w)] |}
  | _ => True
  end.

(** A client is built with exactly one trust option, and a request is sent
    through a client built that way. *)
Definition one_trust_option (ev : Event) : Prop :=
  match ev with
  | EvNewClient _ opts => List.length opts = 1%nat
  | EvSign client _ => List.length (client_options client) = 1%nat
  | _ => True
  end.

(** A request sent to the remote authority carries the request [csr] and the
    token [token] as given, and the subject that the token claims equals the
    common name of [csr] case-insensitively. *)
Definition identity_checked (token : string) (csr : CertificateRequest)
    (ev : Event) : Prop :=
  match ev with
  | EvSign _ req =>
      CsrPEM req = csr ∧ OTT req = token
      ∧ ∃ tok claims,
          jose_ParseSigned token = inr tok
          ∧ UnsafeClaimsWithoutVerification tok = inr claims
          ∧ equal_ignoring_case (Subject claims) (Subject_CommonName csr)
  | _ => True
  end.

(** A call of the token flow: the only file looked up is the default root
    path, and only when [--root] is empty; the caller is prompted only when
    no subject was given; the token is requested for the subject given, with
    the SANs of [--san], at the non-empty [--ca-url], with the root of
    [--root] or else the default path, and with validity bounds that the
    two validity flags resolved to. *)
Definition token_flow_call (ctx : Context) (subject : string) (w : World)
    (ev : Event) : Prop :=
  match ev with
  | EvStat name => ctx_String ctx "root" = "" ∧ name = pki_GetRootCAPath w
  | EvPrompt _ => subject = ""
  | EvNewTokenFlow sub sans caURL root notBefore notAfter =>
      (subject ≠ "" → sub = subject)
      ∧ sans = ctx_StringSlice ctx "san"
      ∧ caURL = ctx_String ctx "ca-url" ∧ caURL ≠ ""
      ∧ root = root_or_default ctx w
      ∧ (∃ w', flags_ParseTimeOrDuration w' (ctx_String ctx "not-before")
               = (notBefore, true))
      ∧ (∃ w', flags_ParseTimeOrDuration w' (ctx_String ctx "not-after")
               = (notAfter, true))
  | _ => False
  end.

(** The calls of a complete run of the offline flow, in order: start the
    local authority, have it issue a token, build the request and the key,
    have the request signed, write the certificate, write the key, report
    the two paths. *)
Definition offline_sequence (ctx : Context) (subject crtFile keyFile : string)
    (token : string) (req : SignRequest) (data : bytes) (pk : PrivateKey) :
    list Event :=
  let ca := {| offline_config := ctx_String ctx "ca-config" |} in
  [EvNewOfflineCA (ctx_String ctx "ca-config");
   EvGenerateToken ca subject;
   EvCreateSignRequest token;
   EvOfflineSign ca req;
   EvWriteFile crtFile data mode_0600;
   EvSerializeToFile pk keyFile mode_0600;
   EvPrintSelected "Certificate" crtFile;
   EvPrintSelected "Private Key" keyFile].

(** The subject that the token of a request claims equals the common name
    of the request case-insensitively. *)
Definition token_matches (req : SignRequest) : Prop :=
  ∃ tok claims,
    jose_ParseSigned (OTT req) = inr tok
    ∧ UnsafeClaimsWithoutVerification tok = inr claims
    ∧ equal_ignoring_case (Subject claims) (Subject_CommonName (CsrPEM req)).

(** An error that the commands build themselves, as opposed to one that a
    collaborator returned. *)
Definition own_error (e : Error) : Prop := ∀ err, e ≠ External err.

End Commands.

(** ** A small world to run the commands in

    An instance of [Collaborators] made of total, computable functions, on
    which the commands evaluate.  A token is the name it was issued for; a
    token that starts with [boot.] also pins a root and names its authority,
    the way a bootstrap token does. *)
Module Toy.

Definition lower (c : ascii) : ascii :=
  let n := nat_of_ascii c in
  if (65 <=? n)%nat && (n <=? 90)%nat then ascii_of_nat (n + 32) else c.

(** [strings.ToLower] on a string of ASCII bytes. *)
Fixpoint ToLower (s : string) : string :=
  match s with
  | EmptyString => EmptyString
  | String c s' => String (lower c) (ToLower s')
  end.

(** The instants the toy clock knows, in nanoseconds since the zero
    instant; the empty string is the zero time. *)
Definition day : Z := 86400 * 10 ^ 9.

Definition ParseTimeOrDuration (s : string) : Time * bool :=
  if bool_decide (s = "") then (0, true)
  else if bool_decide (s = "2019-01-01T00:00:00Z") then (737059 * day, true)
  else if bool_decide (s = "2020-01-01T00:00:00Z") then (737424 * day, true)
  else (0, false).

Definition claims (token : string) : ExtError + tokenClaims :=
  if bool_decide (token = "") then inl "empty token"
  else if String.prefix "boot." token
       then inr {| SHA := "c0ffee"; Subject := token;
                   Audience := ["HTTPS://ca.example.com/1.0/sign"] |}
       else inr {| SHA := ""; Subject := token; Audience := ["step-ca"] |}.

(** The request built for a name, and the key that goes with it. *)
Definition csr_for (name : string) : CertificateRequest :=
  {| Subject_CommonName := name; DNSNames := [name]; IPAddresses := [] |}.

Definition request_for (token name : string) : SignRequest :=
  {| CsrPEM := csr_for name; OTT := token; NotBefore := 0; NotAfter := 0 |}.

Definition fresh_key : PrivateKey := {| key_Raw := "fresh key" |}.

Definition CreateSignRequest (token : string) : ExtError + SignRequest * PrivateKey :=
  match claims token with
  | inl e => inl e
  | inr c => inr (request_for token (Subject c), fresh_key)
  end.

Definition Read (filename : string) : ExtError + PEMObject :=
  if bool_decide (filename = "internal.csr")
  then inr (PEM_CertificateRequest
              {| Subject_CommonName := "internal.example.com";
                 DNSNames := ["internal.example.com"]; IPAddresses := [] |})
  else if bool_decide (filename = "internal.crt")
       then inr (PEM_Certificate {| cert_Raw := "leaf" |})
       else inl "no such file".

Definition Serialize (crt : Certificate) : ExtError + pem_Block :=
  inr {| block_Type := "CERTIFICATE"; block_Bytes := cert_Raw crt |}.

Definition EncodeToMemory (b : pem_Block) : bytes :=
  "-----BEGIN " +:+ block_Type b +:+ "-----" +:+ block_Bytes b
  +:+ "-----END " +:+ block_Type b +:+ "-----".

Definition issued : SignResponse :=
  {| ServerPEM := {| cert_Raw := "leaf" |}; CaPEM := {| cert_Raw := "root" |} |}.

Definition collaborators : Collaborators := {|
  World := unit;
  JSONWebToken := string;
  strings_ToLower := ToLower;
  errs_NumberOfArguments ctx n :=
    if bool_decide (List.length (ctx_args ctx) = n) then None
    else Some "wrong number of arguments";
  jose_ParseSigned token := inr token;
  UnsafeClaimsWithoutVerification := claims;
  pemutil_Serialize := Serialize;
  pem_EncodeToMemory := EncodeToMemory;
  pki_GetRootCAPath _ := "/home/step/certs/root_ca.crt";
  flags_ParseTimeOrDuration _ := ParseTimeOrDuration;
  parseValidity ctx _ :=
    match ParseTimeOrDuration (ctx_String ctx "not-before"),
          ParseTimeOrDuration (ctx_String ctx "not-after") with
    | (nb, true), (na, true) => inr (nb, na)
    | _, _ => inl "invalid validity"
    end;
  os_Stat _ w := (inl "no such file", w);
  ui_Prompt _ w := (inr "prompted.example.com", w);
  newTokenFlow _ subject _ _ _ _ _ w := (inr subject, w);
  ca_CreateSignRequest token w := (CreateSignRequest token, w);
  pemutil_Read filename w := (Read filename, w);
  ca_NewClient _ _ w := (inr (), w);
  client_Sign _ _ w := (inr issued, w);
  newOfflineCA _ w := (inr (), w);
  offlineCA_GenerateToken _ _ subject w := (inr subject, w);
  offlineCA_Sign _ _ w := (inr issued, w);
  utils_WriteFile _ _ _ w := (inr (), w);
  pemutil_Serialize_ToFile key _ _ w :=
    (inr {| block_Type := "PRIVATE KEY"; block_Bytes := key_Raw key |}, w);
  ui_PrintSelected _ _ w := w
|}.

(** The state a command starts in. *)
Definition after (evs : list Event) : @State collaborators :=
  @Build_State collaborators () evs.

Definition start : @State collaborators := after [].

(** A context from its positional arguments and flags. *)
Definition context (args : list string) (strs : list (string * string))
    (bools : list (string * bool)) (sans : list string) : Context :=
  {| ctx_args := args;
     ctx_strings := list_to_map strs;
     ctx_bools := list_to_map bools;
     ctx_slices := if bool_decide (sans = []) then ∅ else {[ "san" := sans ]} |}.

(** [step ca certificate --offline --token internal.example.com
     --san 10.2.3.4 internal.example.com internal.crt internal.key] *)
Definition offline_token_san : Context :=
  context ["internal.example.com"; "internal.crt"; "internal.key"]
          [("token", "internal.example.com")] [("offline", true)] ["10.2.3.4"].

(** The same without [--offline]. *)
Definition token_san : Context :=
  context ["internal.example.com"; "internal.crt"; "internal.key"]
          [("token", "internal.example.com")] [] ["10.2.3.4"].

(** [step ca certificate --offline --token internal.example.com
     internal.example.com internal.crt internal.key] *)
Definition offline_token : Context :=
  context ["internal.example.com"; "internal.crt"; "internal.key"]
          [("token", "internal.example.com")] [("offline", true)] [].

(** [step ca certificate --offline internal.example.com internal.crt
     internal.key], with no [--ca-config]. *)
Definition offline_no_config : Context :=
  context ["internal.example.com"; "internal.crt"; "internal.key"]
          [] [("offline", true)] [].

(** [step ca certificate --token internal.example.com
     Internal.Example.COM internal.crt internal.key] with an authority and
    a root file. *)
Definition same_name : Context :=
  context ["Internal.Example.COM"; "internal.crt"; "internal.key"]
          [("token", "internal.example.com");
           ("ca-url", "https://ca.example.com"); ("root", "root_ca.crt")] [] [].

(** [step ca certificate --token internal.example.com other.example.com
     internal.crt internal.key] *)
Definition other_name : Context :=
  context ["other.example.com"; "internal.crt"; "internal.key"]
          [("token", "internal.example.com")] [] [].

(** [step ca certificate --token boot.example.com boot.example.com
     boot.crt boot.key] *)
Definition bootstrap : Context :=
  context ["boot.example.com"; "boot.crt"; "boot.key"]
          [("token", "boot.example.com")] [] [].

(** The same with [--not-before 2020-01-01T00:00:00Z
    --not-after 2019-01-01T00:00:00Z]. *)
Definition reversed_validity : Context :=
  context ["boot.example.com"; "boot.crt"; "boot.key"]
          [("token", "boot.example.com");
           ("not-before", "2020-01-01T00:00:00Z");
           ("not-after", "2019-01-01T00:00:00Z")] [] [].

(** [step ca sign --token internal.example.com --ca-url ... --root ...
     internal.csr out.crt] *)
Definition sign_csr : Context :=
  context ["internal.csr"; "out.crt"]
          [("token", "internal.example.com");
           ("ca-url", "https://ca.example.com"); ("root", "root_ca.crt")] [] [].

(** [step ca sign internal.crt out.crt]: the file holds a certificate. *)
Definition sign_crt : Context := context ["internal.crt"; "out.crt"] [] [] [].

(** [step ca certificate --token internal.example.com
     --ca-url https://ca.example.com internal.example.com internal.crt
     internal.key]: no [--root], and the toy world has no default root. *)
Definition no_root : Context :=
  context ["internal.example.com"; "internal.crt"; "internal.key"]
          [("token", "internal.example.com");
           ("ca-url", "https://ca.example.com")] [] [].

(** [step ca certificate --offline --ca-config ca.json internal.example.com
     internal.crt internal.key] *)
Definition offline_config : Context :=
  context ["internal.example.com"; "internal.crt"; "internal.key"]
          [("ca-config", "ca.json")] [("offline", true)] [].

(** [step ca certificate --token internal.example.com --not-before yesterday
     internal.example.com internal.crt internal.key] *)
Definition bad_validity : Context :=
  context ["internal.example.com"; "internal.crt"; "internal.key"]
          [("token", "internal.example.com"); ("not-before", "yesterday")] [] [].

(** [step ca certificate --ca-url https://ca.example.com --root root_ca.crt
     --not-before yesterday internal.example.com internal.crt internal.key] *)
Definition bad_validity_no_token : Context :=
  context ["internal.example.com"; "internal.crt"; "internal.key"]
          [("ca-url", "https://ca.example.com"); ("root", "root_ca.crt");
           ("not-before", "yesterday")] [] [].

(** The claims of the toy token [internal.example.com]. *)
Definition plain_claims : tokenClaims :=
  {| SHA := ""; Subject := "internal.example.com"; Audience := ["step-ca"] |}.

End Toy.

(** * Properties *)

(** Unfolds the monad, leaving the calls into collaborators. *)
Ltac unfold_M :=
  cbv beta iota zeta delta
    [mbind mret M_bind M_ret fail peek check attempt call PrintSelected
     parseFlagTime from_option] in *.

(** Rewrites with the boolean tests the hypotheses decide. *)
Ltac decide_tests :=
  repeat match goal with
         | H : ?P |- context [bool_decide ?P] => rewrite (bool_decide_eq_true_2 P H)
         | H : ¬ ?P |- context [bool_decide ?P] => rewrite (bool_decide_eq_false_2 P H)
         | H : ?x ≠ ?y |- context [bool_decide (?x = ?y)] =>
             rewrite (bool_decide_eq_false_2 (x = y) H)
         end.

(** Runs a command symbolically: every call into a collaborator and every
    test is split into its outcomes. *)
Ltac exec := unfold_M; simpl; repeat (case_match; simplify_eq /=).

(** Names the calls of a finished run: [trace s' = trace s ++ evs]. *)
Ltac name_calls :=
  unfold calls; simpl;
  first [ exists []; split; [by rewrite app_nil_r|]
        | rewrite <- ?app_assoc; eexists; split; [reflexivity|] ];
  simpl.

Section Flags.
Context `{C : Collaborators}.

(** A run that leaves the state as it found it made no call. *)
Lemma calls_same_state (s : State) (evs : list Event) : calls s s evs → evs = [].
Proof.
  unfold calls. intros Hevs.
  apply (app_inv_head (trace s)). by rewrite app_nil_r.
Qed.

(** ** C5: offline mode and an explicit token *)

(** C5.  When the new-certificate operation is invoked (with its three
    positional arguments) in offline mode and with an explicit token, it
    fails with the incompatible-flags configuration error and leaves the
    state as it found it: nothing was parsed, generated, checked or
    contacted before the failure. *)
Theorem offline_with_token_is_incompatible (ctx : Context) (s : State) :
  errs_NumberOfArguments ctx 3 = None →
  ctx_Bool ctx "offline" = true →
  len (ctx_String ctx "token") ≠ 0%nat →
  newCertificateAction ctx s = (inl (IncompatibleFlagWithFlag "offline" "token"), s)
  ∧ ConfigurationError (IncompatibleFlagWithFlag "offline" "token")
  ∧ ∀ evs, calls s (newCertificateAction ctx s).2 evs → evs = [].
Proof.
  intros Hargs Hoff Htok.
  assert (Hrun : newCertificateAction ctx s
                 = (inl (IncompatibleFlagWithFlag "offline" "token"), s)).
  { unfold newCertificateAction. unfold_M. rewrite Hargs, Hoff.
    decide_tests. reflexivity. }
  split; [exact Hrun|]. split.
  - left. eauto.
  - rewrite Hrun. apply calls_same_state.
Qed.

End Flags.

Section Guards.
Context `{C : Collaborators}.

(** ** C1: an explicit token and a SAN list *)

(** C1 (amended).  When the new-certificate operation is invoked (with its
    three positional arguments) without offline mode, with an explicit token
    and a non-empty SAN list, it fails with the mutually-exclusive-flags
    error and leaves the state as it found it: no collaborator, hence no
    network, was called. *)
Theorem token_with_san_is_exclusive (ctx : Context) (s : State) :
  errs_NumberOfArguments ctx 3 = None →
  ctx_Bool ctx "offline" = false →
  len (ctx_String ctx "token") ≠ 0%nat →
  ctx_StringSlice ctx "san" ≠ [] →
  newCertificateAction ctx s = (inl (MutuallyExclusiveFlags "token" "san"), s)
  ∧ MutuallyExclusiveOptionsError (MutuallyExclusiveFlags "token" "san")
  ∧ ∀ evs, calls s (newCertificateAction ctx s).2 evs →
           Forall (λ ev, is_network ev = false) evs.
Proof.
  intros Hargs Hoff Htok Hsan.
  assert (Hrun : newCertificateAction ctx s
                 = (inl (MutuallyExclusiveFlags "token" "san"), s)).
  { unfold newCertificateAction. unfold_M. rewrite Hargs, Hoff. simpl.
    decide_tests.
    destruct (ctx_StringSlice ctx "san") as [|san sans]; [done|].
    rewrite bool_decide_eq_true_2 by (simpl; lia). reflexivity. }
  split; [exact Hrun|]. split.
  - red. eauto.
  - intros evs. rewrite Hrun. simpl. intros ->%calls_same_state. constructor.
Qed.

(** ** C6: offline mode without a configuration *)

(** C6.  The offline flow invoked with no configuration path fails with the
    invalid-flag-value configuration error and leaves the state as it found
    it: in particular no key pair was generated. *)
Theorem offline_needs_config (ctx : Context) (subject crtFile keyFile : string)
    (s : State) :
  ctx_String ctx "ca-config" = "" →
  signCertificateOfflineFlow ctx subject crtFile keyFile s
    = (inl (InvalidFlagValue "ca-config" "" ""), s)
  ∧ ConfigurationError (InvalidFlagValue "ca-config" "" "")
  ∧ ∀ evs, calls s (signCertificateOfflineFlow ctx subject crtFile keyFile s).2 evs →
           Forall (λ ev, is_keygen ev = false) evs.
Proof.
  intros Hcfg.
  assert (Hrun : signCertificateOfflineFlow ctx subject crtFile keyFile s
                 = (inl (InvalidFlagValue "ca-config" "" ""), s)).
  { unfold signCertificateOfflineFlow. rewrite Hcfg. reflexivity. }
  split; [exact Hrun|]. split.
  - right; left. eauto.
  - intros evs. rewrite Hrun. simpl. intros ->%calls_same_state. constructor.
Qed.

(** ** C7: a PEM file that is not a certificate request *)

(** C7.  When the file given to the sign operation decodes to a PEM object
    of any type other than a certificate request, the operation fails with
    the not-a-certificate-request error, having only read the file: no
    exchange with an authority was started. *)
Theorem other_pem_is_rejected (ctx : Context) (s : State) (obj : PEMObject)
    (w : World) :
  errs_NumberOfArguments ctx 2 = None →
  pemutil_Read (Get (Args ctx) 0) (world s) = (inr obj, w) →
  (∀ csr, obj ≠ PEM_CertificateRequest csr) →
  signCertificateAction ctx s
    = (inl (NotACertificateRequest (Get (Args ctx) 0)),
       {| world := w; trace := trace s ++ [EvRead (Get (Args ctx) 0)] |})
  ∧ NotACertificateRequestError (NotACertificateRequest (Get (Args ctx) 0))
  ∧ Forall (λ ev, is_exchange ev = false) [EvRead (Get (Args ctx) 0)].
Proof.
  intros Hargs Hread Hobj. split; [|split].
  - unfold signCertificateAction. unfold_M. rewrite Hargs. simpl.
    rewrite Hread. destruct obj as [csr| | |]; [|reflexivity..].
    by destruct (Hobj csr).
  - red. eauto.
  - by repeat constructor.
Qed.

End Guards.

Section Identity.
Context `{C : Collaborators}.

(** ** C3: the subject of the token and the common name of the request *)

(** C3.  In the signing operation, once the validity flags and the token
    have been parsed: if the subject claimed by the token equals the common
    name of the request case-insensitively, whatever the operation returns
    is not a subject mismatch; if they differ, it fails with the subject
    mismatch error and leaves the state as it found it, so no exchange with
    the authority took place. *)
Theorem subject_must_match_common_name (ctx : Context) (token : string)
    (csr : CertificateRequest) (crtFile : string) (s : State)
    (notBefore notAfter : Time) (tok : JSONWebToken) (claims : tokenClaims) :
  flags_ParseTimeOrDuration (world s) (ctx_String ctx "not-before") = (notBefore, true) →
  flags_ParseTimeOrDuration (world s) (ctx_String ctx "not-after") = (notAfter, true) →
  jose_ParseSigned token = inr tok →
  UnsafeClaimsWithoutVerification tok = inr claims →
  (equal_ignoring_case (Subject claims) (Subject_CommonName csr) →
   ∀ e s', signCertificateRequest ctx token csr crtFile s = (inl e, s') →
           ¬ SubjectMismatchError e)
  ∧ (¬ equal_ignoring_case (Subject claims) (Subject_CommonName csr) →
     signCertificateRequest ctx token csr crtFile s
       = (inl (CommonNameMismatch (Subject claims) (Subject_CommonName csr)), s)
     ∧ SubjectMismatchError
         (CommonNameMismatch (Subject claims) (Subject_CommonName csr))
     ∧ ∀ evs, calls s (signCertificateRequest ctx token csr crtFile s).2 evs →
              Forall (λ ev, is_exchange ev = false) evs).
Proof.
  unfold equal_ignoring_case. intros Hnb Hna Htok Hclaims. split.
  - intros Heq e s'. unfold signCertificateRequest. unfold_M.
    rewrite Hnb; simpl. rewrite Hna; simpl. rewrite Htok; simpl.
    rewrite Hclaims; simpl. decide_tests. simpl.
    intros Hrun [(cn & h & ->)|(sub & cn & ->)]; revert Hrun; exec;
      by intros [=].
  - intros Hne.
    assert (Hrun : signCertificateRequest ctx token csr crtFile s
                   = (inl (CommonNameMismatch (Subject claims)
                             (Subject_CommonName csr)), s)).
    { unfold signCertificateRequest. unfold_M.
      rewrite Hnb; simpl. rewrite Hna; simpl. rewrite Htok; simpl.
      rewrite Hclaims; simpl. by decide_tests. }
    split; [exact Hrun|]. split.
    + right. eauto.
    + intros evs. rewrite Hrun. simpl. intros ->%calls_same_state. constructor.
Qed.

(** ** C4: the hostname and the common name of the request *)

(** C4.  In the direct-token flow of the new-certificate operation (an
    explicit token, no offline mode, no SAN list), once the request has been
    built from the token: if the common name of the request differs from
    the hostname case-insensitively the operation fails with the subject
    mismatch error; if they are equal case-insensitively the check passes,
    that is, the operation goes on to sign the request. *)
Theorem hostname_must_match_common_name (ctx : Context) (s : State)
    (req : SignRequest) (pk : PrivateKey) (w : World) :
  errs_NumberOfArguments ctx 3 = None →
  ctx_Bool ctx "offline" = false →
  len (ctx_String ctx "token") ≠ 0%nat →
  ctx_StringSlice ctx "san" = [] →
  ca_CreateSignRequest (ctx_String ctx "token") (world s) = (inr (req, pk), w) →
  let hostname := Get (Args ctx) 0 in
  let token := ctx_String ctx "token" in
  let built := {| world := w; trace := trace s ++ [EvCreateSignRequest token] |} in
  (¬ equal_ignoring_case hostname (Subject_CommonName (CsrPEM req)) →
   newCertificateAction ctx s
     = (inl (HostnameMismatch (Subject_CommonName (CsrPEM req)) hostname), built)
   ∧ SubjectMismatchError
       (HostnameMismatch (Subject_CommonName (CsrPEM req)) hostname))
  ∧ (equal_ignoring_case hostname (Subject_CommonName (CsrPEM req)) →
     newCertificateAction ctx s = after_identity_check ctx token req pk built).
Proof.
  unfold equal_ignoring_case. intros Hargs Hoff Htok Hsan Hreq. simpl.
  split.
  - intros Hne. split; [|left; eauto].
    unfold newCertificateAction. unfold_M. rewrite Hargs, Hoff, Hsan. simpl.
    decide_tests. simpl. rewrite Hreq. simpl. by decide_tests.
  - intros Heq.
    unfold newCertificateAction, after_identity_check. unfold_M.
    rewrite Hargs, Hoff, Hsan. simpl.
    decide_tests. simpl. rewrite Hreq. simpl. by decide_tests.
Qed.

End Identity.

Section TrustAnchor.
Context `{C : Collaborators}.

(** ** C2: the trust anchor of a bootstrap token *)

Lemma ctx_String_set_ne (ctx : Context) (name name' value : string) :
  name ≠ name' → ctx_String (set_String ctx name value) name' = ctx_String ctx name'.
Proof.
  intros Hne. unfold ctx_String, set_String. simpl.
  by rewrite lookup_insert_ne.
Qed.

(** C2.  When the claims of the token carry a non-empty fingerprint and a
    first audience entry that is HTTP(S)-looking, the signing operation
    resolves its trust anchor in pinned mode: it runs the same whatever
    authority URL and root path the caller supplied, it never looks for a
    root file, every call to the authority goes to the first audience entry
    with the fingerprint pin as only trust option, and that call is made as
    soon as the validity flags parse and the subject matches. *)
Theorem pinned_mode_is_selected (ctx : Context) (token : string)
    (csr : CertificateRequest) (crtFile : string) (s : State)
    (tok : JSONWebToken) (claims : tokenClaims) (url : string)
    (audience : list string) :
  jose_ParseSigned token = inr tok →
  UnsafeClaimsWithoutVerification tok = inr claims →
  SHA claims ≠ "" →
  Audience claims = url :: audience →
  looks_like_http url →
  (∀ caURL root,
     signCertificateRequest
       (set_String (set_String ctx "ca-url" caURL) "root" root) token csr crtFile s
     = signCertificateRequest ctx token csr crtFile s)
  ∧ (∀ r s', signCertificateRequest ctx token csr crtFile s = (r, s') →
       ∃ evs, calls s s' evs ∧ Forall (pinned_call url (SHA claims)) evs)
  ∧ (∀ notBefore notAfter,
       flags_ParseTimeOrDuration (world s) (ctx_String ctx "not-before")
         = (notBefore, true) →
       flags_ParseTimeOrDuration (world s) (ctx_String ctx "not-after")
         = (notAfter, true) →
       equal_ignoring_case (Subject claims) (Subject_CommonName csr) →
       ∃ evs, calls s (signCertificateRequest ctx token csr crtFile s).2
                (EvPrintSelected "CA" url
                   :: EvNewClient url [WithRootSHA256 (SHA claims)] :: evs)).
Proof.
  unfold looks_like_http, equal_ignoring_case.
  intros Htok Hclaims Hsha Haud Hhttp.
  assert (Hlen : (0 < len (SHA claims))%nat).
  { unfold len. destruct (SHA claims); [done|simpl; lia]. }
  assert (Hpin : bool_decide (0 < len (SHA claims))%nat
                 && bool_decide (0 < List.length (Audience claims))%nat
                 && strings_HasPrefix
                      (strings_ToLower (index (Audience claims) 0)) "http" = true).
  { rewrite Haud. unfold index. simpl. rewrite Hhttp.
    rewrite !bool_decide_eq_true_2 by lia. reflexivity. }
  assert (Hurl : index (Audience claims) 0 = url).
  { rewrite Haud. reflexivity. }
  split; [|split].
  - intros caURL root. unfold signCertificateRequest.
    rewrite Htok. unfold_M. simpl. rewrite Hclaims. simpl.
    rewrite !ctx_String_set_ne by done.
    rewrite Hpin, Hurl. reflexivity.
  - intros r s'. unfold signCertificateRequest.
    rewrite Htok. unfold_M. simpl. rewrite Hclaims. simpl.
    rewrite Hpin, Hurl.
    exec; intros [= <- <-]; name_calls; by repeat constructor.
  - intros notBefore notAfter Hnb Hna Heq. unfold signCertificateRequest.
    unfold_M. rewrite Hnb; simpl. rewrite Hna; simpl. rewrite Htok; simpl.
    rewrite Hclaims; simpl. rewrite Hpin, Hurl. decide_tests. simpl.
    exec; unfold calls; simpl; rewrite <- ?app_assoc; simpl; eauto.
Qed.

End TrustAnchor.

Section Runs.
Context `{C : Collaborators}.

Lemma issued_in_mono (evs evs' : list Event) (resp : SignResponse) :
  evs ⊆ evs' → issued_in evs resp → issued_in evs' resp.
Proof.
  intros Hsub (req & w & w' & [(client & Hin & Hsign)|(ca & Hin & Hsign)]);
    exists req, w, w'; [left|right]; eexists; split; eauto.
Qed.

(** *** The token flow *)

(** The token flow writes no artifact, generates no key and never reports
    a mismatch. *)
Lemma signCertificateTokenFlow_calls (ctx : Context) (subject : string)
    (s s' : State) (r : Error + string) :
  signCertificateTokenFlow ctx subject s = (r, s') →
  ∃ evs, calls s s' evs
         ∧ List.filter is_write evs = []
         ∧ List.filter is_keygen evs = []
         ∧ ∀ cn h, r ≠ inl (HostnameMismatch cn h).
Proof.
  unfold signCertificateTokenFlow.
  exec; intros [= <- <-]; name_calls; by repeat split.
Qed.

(** *** The signing operation *)

(** The signing operation generates no key and never reports a hostname
    mismatch; when it succeeds, its one write is the certificate file, made
    of the chain that the authority returned, with mode 0600. *)
Lemma signCertificateRequest_calls (ctx : Context) (token : string)
    (csr : CertificateRequest) (crtFile : string) (s s' : State)
    (r : Error + unit) :
  signCertificateRequest ctx token csr crtFile s = (r, s') →
  ∃ evs, calls s s' evs
         ∧ List.filter is_keygen evs = []
         ∧ (∀ cn h, r ≠ inl (HostnameMismatch cn h))
         ∧ (r = inr () →
            ∃ resp data,
              issued_in evs resp
              ∧ certificate_chain resp data
              ∧ List.filter is_write evs = [EvWriteFile crtFile data mode_0600]).
Proof.
  unfold signCertificateRequest.
  exec; intros [= <- <-]; name_calls;
    (split; [reflexivity|]); (split; [done|]);
    simpl; intros Hok; try discriminate Hok; clear Hok.
  all: eexists _, _; split; [|split; [|reflexivity]].
  all: try (eexists _, _; split; [|split; [|reflexivity]]; eassumption).
  all: eexists _, _, _; left; eexists; split; [|eassumption]; set_solver.
Qed.

(** *** The offline flow *)

(** The offline flow never reports a hostname mismatch; when it succeeds,
    its writes are the certificate file, made of the chain that the local
    authority returned, and then the file of the key it generated, both with
    mode 0600. *)
Lemma signCertificateOfflineFlow_calls (ctx : Context)
    (subject crtFile keyFile : string) (s s' : State) (r : Error + unit) :
  signCertificateOfflineFlow ctx subject crtFile keyFile s = (r, s') →
  ∃ evs, calls s s' evs
         ∧ (∀ cn h, r ≠ inl (HostnameMismatch cn h))
         ∧ (r = inr () →
            ∃ resp data pk,
              issued_in evs resp
              ∧ certificate_chain resp data
              ∧ generated_in evs pk
              ∧ List.filter is_write evs
                = [EvWriteFile crtFile data mode_0600;
                   EvSerializeToFile pk keyFile mode_0600]).
Proof.
  unfold signCertificateOfflineFlow.
  exec; intros [= <- <-]; name_calls; (split; [done|]);
    intros Hok; try discriminate Hok; clear Hok.
  eexists _, _, _. split; [|split; [|split; [|reflexivity]]].
  - eexists _, _, _; right; eexists; split; [|eassumption]; set_solver.
  - eexists _, _; split; [|split; [|reflexivity]]; eassumption.
  - eexists _, _, _, _; split; [|eassumption]; set_solver.
Qed.

(** Uses what is known of the runs of the helpers. *)
Ltac use_helpers :=
  repeat match goal with
         | H : signCertificateTokenFlow _ _ _ = _ |- _ =>
             apply signCertificateTokenFlow_calls in H
               as (? & ? & ? & ? & ?)
         | H : signCertificateRequest _ _ _ _ _ = _ |- _ =>
             apply signCertificateRequest_calls in H
               as (? & ? & ? & ? & ?)
         | H : signCertificateOfflineFlow _ _ _ _ _ = _ |- _ =>
             apply signCertificateOfflineFlow_calls in H
               as (? & ? & ? & ?)
         end.

(** The helpers that returned [nil] did what they do on success. *)
Ltac succeeded :=
  repeat match goal with
         | u : unit |- _ => destruct u
         | H : inr () = inr () → _ |- _ => specialize (H eq_refl)
         end.

(** Names the calls of a run that went through helpers. *)
Ltac chain_calls :=
  unfold calls in *; simpl in *;
  repeat match goal with
         | H : trace ?s' = _ |- context [trace ?s'] => rewrite H
         end;
  rewrite <- ?app_assoc.

(** ** C9: the artifacts of a successful issuance *)

(** C9.  When the new-certificate operation succeeds (online or offline),
    the files written are, in this order, the certificate file, holding
    the PEM block of the leaf certificate followed by the PEM block of the
    certificate of the authority that issued it, and the file of the
    freshly generated key, both with mode 0600; when the sign operation
    succeeds, the one file written is that certificate file, with mode
    0600. *)
Theorem artifacts_are_chain_and_key_mode_0600 :
  (∀ ctx s s',
     newCertificateAction ctx s = (inr (), s') →
     ∃ evs resp data pk,
       calls s s' evs
       ∧ issued_in evs resp
       ∧ certificate_chain resp data
       ∧ generated_in evs pk
       ∧ List.filter is_write evs
         = [EvWriteFile (Get (Args ctx) 1) data mode_0600;
            EvSerializeToFile pk (Get (Args ctx) 2) mode_0600])
  ∧ (∀ ctx s s',
       signCertificateAction ctx s = (inr (), s') →
       ∃ evs resp data,
         calls s s' evs
         ∧ issued_in evs resp
         ∧ certificate_chain resp data
         ∧ List.filter is_write evs
           = [EvWriteFile (Get (Args ctx) 1) data mode_0600])
  ∧ mode_0600 = 0x180%N.
Proof.
  split; [|split; [|reflexivity]].
  - intros ctx s s'. unfold newCertificateAction.
    exec; intros Hrun; simplify_eq; use_helpers; succeeded.
    + (* offline *)
      match goal with
      | H : ∃ resp data pk, _ |- _ => destruct H as (resp & data & pk & ?)
      end.
      by eexists _, resp, data, pk.
    + (* online, through the token flow *)
      match goal with
      | H : ∃ resp data, _ |- _ => destruct H as (resp & data & Hiss & Hchain & Hwr)
      end.
      chain_calls. eexists _, resp, data, _.
      split; [reflexivity|]. split; [|split; [done|split]].
      * eapply issued_in_mono; [|exact Hiss]. set_solver.
      * eexists _, _, _, _. split; [|eassumption]. set_solver.
      * rewrite !List.filter_app. simpl.
        by repeat match goal with H : List.filter is_write _ = _ |- _ => rewrite H end.
    + (* online, with an explicit token *)
      match goal with
      | H : ∃ resp data, _ |- _ => destruct H as (resp & data & Hiss & Hchain & Hwr)
      end.
      chain_calls. eexists _, resp, data, _.
      split; [reflexivity|]. split; [|split; [done|split]].
      * eapply issued_in_mono; [|exact Hiss]. set_solver.
      * eexists _, _, _, _. split; [|eassumption]. set_solver.
      * rewrite !List.filter_app. simpl.
        by repeat match goal with H : List.filter is_write _ = _ |- _ => rewrite H end.
  - intros ctx s s'. unfold signCertificateAction.
    exec; intros Hrun; simplify_eq; use_helpers; succeeded.
    all: match goal with
         | H : ∃ resp data, _ |- _ => destruct H as (resp & data & Hiss & Hchain & Hwr)
         end.
    all: chain_calls; eexists _, resp, data.
    all: split; [reflexivity|]; split; [|split; [done|]].
    all: try (eapply issued_in_mono; [|exact Hiss]; set_solver).
    all: rewrite !List.filter_app; simpl.
    all: by repeat match goal with H : List.filter is_write _ = _ |- _ => rewrite H end.
Qed.

(** ** C10: a mismatch leaves no artifact *)

(** C10.  In the new-certificate operation, when the hostname and the
    common name of the request built from the token differ
    case-insensitively, the operation returns the mismatch error right after
    the key pair was generated, and whenever it returns that error a key
    pair was generated during the run and no file, certificate or key, was
    written. *)
Theorem mismatch_leaves_no_artifact (ctx : Context) (s : State) :
  (∀ token s1 req pk w,
     errs_NumberOfArguments ctx 3 = None →
     ctx_Bool ctx "offline" = false →
     token_obtained ctx s token s1 →
     ca_CreateSignRequest token (world s1) = (inr (req, pk), w) →
     ¬ equal_ignoring_case (Get (Args ctx) 0) (Subject_CommonName (CsrPEM req)) →
     newCertificateAction ctx s
     = (inl (HostnameMismatch (Subject_CommonName (CsrPEM req)) (Get (Args ctx) 0)),
        {| world := w; trace := trace s1 ++ [EvCreateSignRequest token] |}))
  ∧ (∀ cn h s',
       newCertificateAction ctx s = (inl (HostnameMismatch cn h), s') →
       ∃ evs pk, calls s s' evs
                 ∧ generated_in evs pk
                 ∧ List.filter is_write evs = []
                 ∧ ¬ equal_ignoring_case (Get (Args ctx) 0) cn
                 ∧ h = Get (Args ctx) 0).
Proof.
  unfold equal_ignoring_case. split.
  - intros token s1 req pk w Hargs Hoff Htoken Hreq Hne.
    unfold newCertificateAction. unfold_M. rewrite Hargs, Hoff. simpl.
    destruct Htoken as [(Htok & Hsan & -> & ->)|(Htok & Hflow)].
    + rewrite Hsan. decide_tests. simpl. rewrite Hreq. simpl.
      by decide_tests.
    + decide_tests. rewrite Hflow. rewrite Hreq. simpl. by decide_tests.
  - intros cn h s'. unfold newCertificateAction.
    exec; intros Hrun; simplify_eq; use_helpers;
      try match goal with
          | H : ∀ cn h, inl (HostnameMismatch ?a ?b) ≠ inl (HostnameMismatch cn h)
            |- _ => destruct (H a b eq_refl)
          end.
    all: chain_calls; eexists _, _; split; [reflexivity|].
    all: split; [eexists _, _, _, _; split; [|eassumption]; set_solver|].
    all: split; [|split; [|reflexivity]].
    all: try (rewrite ?List.filter_app; simpl;
              by repeat match goal with
                        | H : List.filter is_write _ = _ |- _ => rewrite H
                        end).
    all: match goal with
         | H : negb (bool_decide _) = true |- _ =>
             apply negb_true_iff, bool_decide_eq_false in H; exact H
         end.
Qed.

(** ** C8: the validity bounds of a request *)

(** C8 (amended).  Every signing request transmitted to the authority
    carries as validity bounds exactly what the validity flags resolved to:
    the results of parsing [--not-before] and [--not-after] online, the pair
    returned by [parseValidity] offline.  The commands do not compare the
    two bounds. *)
Theorem validity_bounds_are_passed_as_resolved :
  (∀ ctx token csr crtFile s,
     ∃ evs, calls s (signCertificateRequest ctx token csr crtFile s).2 evs
            ∧ Forall (bounds_as_flags ctx (world s)) evs)
  ∧ (∀ ctx subject crtFile keyFile s,
       ∃ evs, calls s (signCertificateOfflineFlow ctx subject crtFile keyFile s).2 evs
              ∧ Forall (bounds_as_parsed ctx) evs).
Proof.
  split.
  - intros ctx token csr crtFile s. unfold signCertificateRequest.
    exec; name_calls; repeat constructor;
      repeat match goal with b : bool |- _ => destruct b; simplify_eq /= end;
      done.
  - intros ctx subject crtFile keyFile s. unfold signCertificateOfflineFlow.
    exec; name_calls; repeat constructor; simpl; eauto.
Qed.

End Runs.

(** * Further properties of the commands *)

Lemma len_zero (str : string) : len str = 0%nat ↔ str = "".
Proof. destruct str; simpl; split; (done || lia). Qed.

Lemma len_nonzero (str : string) : str ≠ "" → len str ≠ 0%nat.
Proof. by rewrite len_zero. Qed.

(** Turns the outcomes of the tests on flags into facts about the flags. *)
Ltac flag_facts :=
  repeat match goal with
         | H : bool_decide _ = true |- _ => apply bool_decide_eq_true in H
         | H : bool_decide _ = false |- _ => apply bool_decide_eq_false in H
         | H : negb _ = true |- _ => apply negb_true_iff in H
         | H : negb _ = false |- _ => apply negb_false_iff in H
         end;
  rewrite ?len_zero in *.

(** Splits a membership in an explicit list of calls into its cases. *)
Ltac in_calls H :=
  repeat (apply elem_of_cons in H as [H|H]; [simplify_eq /=|]);
  try (by apply elem_of_nil in H).

Section Requests.
Context `{C : Collaborators}.

Lemma not_pinned_test (claims : tokenClaims) :
  not_pinned claims →
  bool_decide (0 < len (SHA claims))%nat
  && bool_decide (0 < List.length (Audience claims))%nat
  && strings_HasPrefix (strings_ToLower (index (Audience claims) 0)) "http"
  = false.
Proof.
  unfold not_pinned, looks_like_http.
  intros [Hsha|[Haud|(url & audience & Haud & Hurl)]].
  - rewrite Hsha. reflexivity.
  - rewrite Haud. simpl. by rewrite andb_false_r.
  - rewrite Haud. unfold index. simpl.
    destruct (strings_HasPrefix (strings_ToLower url) "http"); [done|].
    by rewrite andb_false_r.
Qed.

(** ** X1: the trust anchor of a token that pins nothing *)

(** X1.  When the claims of the token do not select pinned mode, the signing
    operation resolves its trust anchor in file mode: the only file it looks
    up is the default root path, and only when [--root] is empty; every call
    to the authority goes to the non-empty [--ca-url] with, as only trust
    option, the root file given by [--root] or else the default path. *)
Theorem file_mode_is_selected (ctx : Context) (token : string)
    (csr : CertificateRequest) (crtFile : string) (s : State)
    (tok : JSONWebToken) (claims : tokenClaims) :
  jose_ParseSigned token = inr tok →
  UnsafeClaimsWithoutVerification tok = inr claims →
  not_pinned claims →
  ∃ evs, calls s (signCertificateRequest ctx token csr crtFile s).2 evs
         ∧ Forall (file_call ctx (world s)) evs.
Proof.
  intros Htok Hclaims Hfile%not_pinned_test.
  unfold signCertificateRequest.
  rewrite Htok. unfold_M. simpl. rewrite Hclaims. simpl.
  rewrite Hfile.
  exec; name_calls; repeat constructor; simpl; flag_facts;
    unfold root_or_default; repeat case_bool_decide; done.
Qed.

(** ** X2: the options that file mode requires *)

(** X2.  In file mode, once the validity flags and the token have been
    parsed and the subject matches: without [--ca-url] the signing operation
    fails with the required-flag error for [ca-url], having made no call;
    with [--ca-url] but without [--root], when the default root path cannot
    be found, it fails with the required-flag error for [root], having only
    looked that path up. *)
Theorem file_mode_requires_url_and_root (ctx : Context) (token : string)
    (csr : CertificateRequest) (crtFile : string) (s : State)
    (notBefore notAfter : Time) (tok : JSONWebToken) (claims : tokenClaims) :
  flags_ParseTimeOrDuration (world s) (ctx_String ctx "not-before") = (notBefore, true) →
  flags_ParseTimeOrDuration (world s) (ctx_String ctx "not-after") = (notAfter, true) →
  jose_ParseSigned token = inr tok →
  UnsafeClaimsWithoutVerification tok = inr claims →
  equal_ignoring_case (Subject claims) (Subject_CommonName csr) →
  not_pinned claims →
  (ctx_String ctx "ca-url" = "" →
   signCertificateRequest ctx token csr crtFile s = (inl (RequiredFlag "ca-url"), s))
  ∧ (∀ err w,
       ctx_String ctx "ca-url" ≠ "" →
       ctx_String ctx "root" = "" →
       os_Stat (pki_GetRootCAPath (world s)) (world s) = (inl err, w) →
       signCertificateRequest ctx token csr crtFile s
       = (inl (RequiredFlag "root"),
          {| world := w;
             trace := trace s ++ [EvStat (pki_GetRootCAPath (world s))] |})).
Proof.
  unfold equal_ignoring_case.
  intros Hnb Hna Htok Hclaims Heq Hfile%not_pinned_test. split.
  - intros Hurl. unfold signCertificateRequest. unfold_M.
    rewrite Hnb; simpl. rewrite Hna; simpl. rewrite Htok; simpl.
    rewrite Hclaims; simpl. rewrite Hfile, Hurl. by decide_tests.
  - intros err w Hurl Hroot Hstat.
    assert (Hlen : len (ctx_String ctx "ca-url") ≠ 0%nat) by (by rewrite len_zero).
    unfold signCertificateRequest. unfold_M.
    rewrite Hnb; simpl. rewrite Hna; simpl. rewrite Htok; simpl.
    rewrite Hclaims; simpl. rewrite Hfile, Hroot. decide_tests. simpl.
    by rewrite Hstat.
Qed.

(** ** X3: one trust anchor per client *)

(** X3.  Whatever its inputs, the signing operation builds its client with
    exactly one trust option, never none and never both, and sends its
    request through a client built that way. *)
Theorem one_trust_anchor_per_client (ctx : Context) (token : string)
    (csr : CertificateRequest) (crtFile : string) (s : State) :
  ∃ evs, calls s (signCertificateRequest ctx token csr crtFile s).2 evs
         ∧ Forall one_trust_option evs
         ∧ ∀ client req,
             EvSign client req ∈ evs →
             EvNewClient (client_endpoint client) (client_options client) ∈ evs.
Proof.
  unfold signCertificateRequest.
  exec; name_calls; (split; [by repeat constructor|]);
    intros client req Hin; in_calls Hin; by repeat constructor.
Qed.

(** The signing operation only sends the request and the token it was
    given, and only when the subject of the token matches. *)
Lemma signCertificateRequest_facts (ctx : Context) (token : string)
    (csr : CertificateRequest) (crtFile : string) (s s' : State)
    (r : Error + unit) :
  signCertificateRequest ctx token csr crtFile s = (r, s') →
  ∃ evs, calls s s' evs
         ∧ Forall (identity_checked token csr) evs
         ∧ List.filter is_token_flow evs = []
         ∧ List.filter is_keygen evs = []
         ∧ (List.length (List.filter is_signing evs) ≤ 1)%nat
         ∧ (∀ label value, EvPrintSelected label value ∈ evs → label = "CA")
         ∧ ∃ data,
             (List.filter is_write evs = []
              ∨ List.filter is_write evs = [EvWriteFile crtFile data mode_0600])
             ∧ (r = inr () →
                List.filter is_write evs = [EvWriteFile crtFile data mode_0600]).
Proof.
  unfold signCertificateRequest.
  exec; intros [= <- <-]; name_calls; flag_facts.
  all: split; [repeat constructor; simpl; eauto 10|].
  all: do 2 (split; [done|]).
  all: split; [lia|].
  all: split; [intros label value Hin; by in_calls Hin|].
  all: eexists; split; [by eauto|]; intros Hok; first [discriminate Hok | reflexivity].
  Unshelve. all: exact "".
Qed.

(** ** X4: validation comes before the exchange *)

(** X4.  When the signing operation fails with an error of its own (a flag
    that does not parse, a token that does not parse, a subject mismatch, a
    missing option), it has neither contacted the authority nor written a
    file: only the errors of collaborators can follow the exchange. *)
Theorem validation_precedes_exchange (ctx : Context) (token : string)
    (csr : CertificateRequest) (crtFile : string) (s : State) (e : Error) :
  (signCertificateRequest ctx token csr crtFile s).1 = inl e →
  own_error e →
  ∃ evs, calls s (signCertificateRequest ctx token csr crtFile s).2 evs
         ∧ Forall (λ ev, is_exchange ev = false ∧ is_write ev = false) evs.
Proof.
  unfold own_error, signCertificateRequest.
  exec; intros [= <-] Hown; name_calls; try by repeat constructor.
  all: by destruct (Hown _ eq_refl).
Qed.

End Requests.

Section Flows.
Context `{C : Collaborators}.

(** ** X5: what the token flow asks for *)

(** X5.  Whatever its inputs, the token flow looks up no file but the
    default root path, and only when [--root] is empty; it prompts only when
    it was given no subject; and it requests a token only for the subject it
    was given, with the SANs of [--san], at a non-empty [--ca-url], with the
    root of [--root] or else the default path, and with the validity bounds
    that the two flags resolved to.  It makes no other call. *)
Theorem token_flow_asks_as_told (ctx : Context) (subject : string) (s : State) :
  ∃ evs, calls s (signCertificateTokenFlow ctx subject s).2 evs
         ∧ Forall (token_flow_call ctx subject (world s)) evs.
Proof.
  unfold signCertificateTokenFlow.
  exec; name_calls; repeat constructor; simpl; flag_facts;
    unfold root_or_default; repeat case_bool_decide;
    repeat match goal with b : bool |- _ => destruct b; simplify_eq /= end;
    eauto; done.
Qed.

(** The token flow neither signs, nor generates a key, nor writes, nor
    reports. *)
Lemma signCertificateTokenFlow_facts (ctx : Context) (subject : string)
    (s s' : State) (r : Error + string) :
  signCertificateTokenFlow ctx subject s = (r, s') →
  ∃ evs, calls s s' evs
         ∧ List.filter is_signing evs = []
         ∧ List.filter is_keygen evs = []
         ∧ List.filter is_write evs = []
         ∧ (∀ label value, EvPrintSelected label value ∉ evs)
         ∧ (∀ client req, EvSign client req ∉ evs)
         ∧ Forall (token_flow_call ctx subject (world s)) evs.
Proof.
  unfold signCertificateTokenFlow.
  exec; intros [= <- <-]; name_calls.
  all: do 3 (split; [done|]).
  all: do 2 (split; [intros ? ? Hin; by in_calls Hin|]).
  all: repeat constructor; simpl; flag_facts;
    unfold root_or_default; repeat case_bool_decide;
    repeat match goal with b : bool |- _ => destruct b; simplify_eq /= end;
    eauto; done.
Qed.

(** The calls of a run of the offline flow are an initial segment of the
    complete sequence, and all of it exactly when the run succeeds. *)
Lemma signCertificateOfflineFlow_sequence (ctx : Context)
    (subject crtFile keyFile : string) (s s' : State) (r : Error + unit) :
  signCertificateOfflineFlow ctx subject crtFile keyFile s = (r, s') →
  ∃ token req data pk evs,
    calls s s' evs
    ∧ evs `prefix_of` offline_sequence ctx subject crtFile keyFile token req data pk
    ∧ (r = inr () ↔ evs = offline_sequence ctx subject crtFile keyFile token req data pk).
Proof.
  unfold signCertificateOfflineFlow, offline_sequence.
  exec; intros [= <- <-]; eexists _, _, _, _; name_calls.
  all: (split; [eexists; reflexivity|]); split; intros Heq;
    first [discriminate Heq | reflexivity].
  Unshelve.
  all: first [exact "" | exact {| key_Raw := "" |}
             | exact {| CsrPEM := {| Subject_CommonName := ""; DNSNames := [];
                                     IPAddresses := [] |};
                        OTT := ""; NotBefore := 0; NotAfter := 0 |}].
Qed.

(** ** X6: the offline flow is one way *)

(** X6.  Whatever its inputs, the calls of the offline flow are an initial
    segment of one fixed sequence: start the local authority from
    [--ca-config], have it issue a token for the subject, build the request
    and the key from that token, have the request signed, write the
    certificate, write the key, report the two paths.  The flow succeeds
    exactly when it went through the whole sequence: no step is repeated,
    skipped or taken out of order. *)
Theorem offline_flow_is_one_way (ctx : Context)
    (subject crtFile keyFile : string) (s : State) :
  ∃ token req data pk evs,
    calls s (signCertificateOfflineFlow ctx subject crtFile keyFile s).2 evs
    ∧ evs `prefix_of` offline_sequence ctx subject crtFile keyFile token req data pk
    ∧ ((signCertificateOfflineFlow ctx subject crtFile keyFile s).1 = inr ()
       ↔ evs = offline_sequence ctx subject crtFile keyFile token req data pk).
Proof.
  destruct (signCertificateOfflineFlow ctx subject crtFile keyFile s)
    as [r s'] eqn:Hrun.
  by apply signCertificateOfflineFlow_sequence in Hrun.
Qed.

(** What the other properties need of the offline flow. *)
Lemma signCertificateOfflineFlow_facts (ctx : Context)
    (subject crtFile keyFile : string) (s s' : State) (r : Error + unit) :
  signCertificateOfflineFlow ctx subject crtFile keyFile s = (r, s') →
  ∃ evs, calls s s' evs
         ∧ (List.length (List.filter is_signing evs) ≤ 1)%nat
         ∧ (List.length (List.filter is_keygen evs) ≤ 1)%nat
         ∧ List.filter is_network evs = []
         ∧ List.filter is_token_flow evs = []
         ∧ (∀ client req, EvSign client req ∉ evs)
         ∧ (∀ label value,
              EvPrintSelected label value ∈ evs →
              r = inr ()
              ∧ (label = "Certificate" ∧ value = crtFile
                 ∨ label = "Private Key" ∧ value = keyFile))
         ∧ (r = inr () →
            EvPrintSelected "Certificate" crtFile ∈ evs
            ∧ EvPrintSelected "Private Key" keyFile ∈ evs)
         ∧ ∃ data pk,
             List.filter is_write evs = []
             ∨ List.filter is_write evs = [EvWriteFile crtFile data mode_0600]
             ∨ List.filter is_write evs = [EvWriteFile crtFile data mode_0600;
                                           EvSerializeToFile pk keyFile mode_0600].
Proof.
  unfold signCertificateOfflineFlow.
  exec; intros [= <- <-]; name_calls.
  all: split; [lia|]; split; [lia|]; do 2 (split; [done|]).
  all: split; [intros ? ? Hin; by in_calls Hin|].
  all: split; [intros ? ? Hin; in_calls Hin; by eauto|].
  all: split; [intros Hok; first [discriminate Hok | split; by repeat constructor]|].
  all: eexists _, _; by eauto.
  Unshelve. all: first [exact "" | exact {| key_Raw := "" |}].
Qed.

End Flows.

(** Uses what is known of the runs of the helpers. *)
Ltac use_facts :=
  repeat match goal with
         | H : signCertificateTokenFlow _ _ _ = _ |- _ =>
             apply signCertificateTokenFlow_facts in H
               as (? & ? & ? & ? & ? & ? & ? & ?)
         | H : signCertificateRequest _ _ _ _ _ = _ |- _ =>
             apply signCertificateRequest_facts in H
               as (? & ? & ? & ? & ? & ? & ? & ? & ? & ?)
         | H : signCertificateOfflineFlow _ _ _ _ _ = _ |- _ =>
             apply signCertificateOfflineFlow_facts in H
               as (? & ? & ? & ? & ? & ? & ? & ? & ? & ? & ? & ?)
         end.

(** The helpers that returned [nil] did what they do on success. *)
Ltac on_success :=
  repeat match goal with
         | u : unit |- _ => destruct u
         | H : inr () = inr () → _ |- _ => specialize (H eq_refl)
         | H : inl _ = inr () → _ |- _ => clear H
         end.

(** Names the calls of a run that went through helpers, or made none. *)
Ltac name_all_calls :=
  unfold calls in *; simpl in *;
  repeat match goal with
         | H : trace ?s' = _ |- context [trace ?s'] => rewrite H
         end;
  first [ exists []; split; [by rewrite app_nil_r|]
        | rewrite <- ?app_assoc; eexists; split; [reflexivity|] ].

(** Counts the calls of one kind along a run. *)
Ltac count_calls :=
  rewrite ?List.filter_app, ?length_app; simpl;
  repeat match goal with
         | H : List.filter _ _ = [] |- _ => rewrite H
         end;
  simpl; try lia.

(** Splits a membership in the calls of a run into the part of the run it
    falls in. *)
Ltac where_in H :=
  repeat (rewrite elem_of_app in H || rewrite elem_of_cons in H
          || rewrite elem_of_nil in H);
  destruct_or? H; simplify_eq /=; try done.

Section Actions.
Context `{C : Collaborators}.

(** ** X7: no retry *)

(** X7.  Whatever its inputs, an invocation of the new-certificate
    operation asks an authority to sign at most once and generates at most
    one key pair; an invocation of the sign operation asks an authority to
    sign at most once and generates no key. *)
Theorem at_most_one_signature_and_key (ctx : Context) (s : State) :
  (∃ evs, calls s (newCertificateAction ctx s).2 evs
          ∧ (List.length (List.filter is_signing evs) ≤ 1)%nat
          ∧ (List.length (List.filter is_keygen evs) ≤ 1)%nat)
  ∧ (∃ evs, calls s (signCertificateAction ctx s).2 evs
            ∧ (List.length (List.filter is_signing evs) ≤ 1)%nat
            ∧ List.filter is_keygen evs = []).
Proof.
  split.
  - destruct (newCertificateAction ctx s) as [r s'] eqn:Hrun. simpl.
    revert Hrun. unfold newCertificateAction.
    exec; intros Hrun; simplify_eq; use_facts; name_all_calls;
      split; count_calls.
  - destruct (signCertificateAction ctx s) as [r s'] eqn:Hrun. simpl.
    revert Hrun. unfold signCertificateAction.
    exec; intros Hrun; simplify_eq; use_facts; name_all_calls;
      split; count_calls; done.
Qed.

(** ** X8: the offline mode stays offline *)

(** X8.  With offline mode selected, the new-certificate operation makes no
    network call: it neither requests a token from the issuer nor builds a
    client for, nor sends a request to, the remote authority. *)
Theorem offline_never_contacts_network (ctx : Context) (s : State) :
  ctx_Bool ctx "offline" = true →
  ∃ evs, calls s (newCertificateAction ctx s).2 evs
         ∧ List.filter is_network evs = [].
Proof.
  intros Hoff.
  destruct (newCertificateAction ctx s) as [r s'] eqn:Hrun. simpl.
  revert Hrun. unfold newCertificateAction.
  exec; intros Hrun; simplify_eq; use_facts; name_all_calls; by count_calls.
Qed.

(** ** X9: what is written, and in which order *)

(** X9.  Whatever its inputs and its outcome, the new-certificate operation
    writes nothing, or the certificate file, or the certificate file and
    then the key file: never the key without the certificate, never another
    file, always with mode 0600.  The sign operation writes nothing or the
    certificate file. *)
Theorem writes_are_certificate_then_key (ctx : Context) (s : State) :
  (∃ data pk evs,
     calls s (newCertificateAction ctx s).2 evs
     ∧ List.filter is_write evs
         `prefix_of` [EvWriteFile (Get (Args ctx) 1) data mode_0600;
                      EvSerializeToFile pk (Get (Args ctx) 2) mode_0600])
  ∧ (∃ data evs,
       calls s (signCertificateAction ctx s).2 evs
       ∧ List.filter is_write evs
           `prefix_of` [EvWriteFile (Get (Args ctx) 1) data mode_0600]).
Proof.
  split.
  - destruct (newCertificateAction ctx s) as [r s'] eqn:Hrun. simpl.
    revert Hrun. unfold newCertificateAction.
    exec; intros Hrun; simplify_eq; use_facts; on_success;
      destruct_or?; eexists _, _; name_all_calls; count_calls;
      repeat match goal with
             | H : List.filter is_write _ = _ |- _ => rewrite H in *
             end;
      simplify_eq /=; by eexists.
    Unshelve. all: first [exact "" | exact {| key_Raw := "" |}].
  - destruct (signCertificateAction ctx s) as [r s'] eqn:Hrun. simpl.
    revert Hrun. unfold signCertificateAction.
    exec; intros Hrun; simplify_eq; use_facts; on_success;
      destruct_or?; eexists _; name_all_calls; count_calls;
      repeat match goal with
             | H : List.filter is_write _ = _ |- _ => rewrite H in *
             end;
      simplify_eq /=; by eexists.
    Unshelve. all: exact "".
Qed.

(** ** X10: a signature is only asked for matching names *)

(** X10.  Whenever the new-certificate operation sends a request to the
    remote authority, the hostname equals the common name of the request
    case-insensitively, the subject that the token claims equals it too, and
    the token sent is the one the request and the key were built from.
    Whenever the sign operation sends a request, the subject that the token
    claims equals the common name of the request case-insensitively, and the
    request is the one read from the file. *)
Theorem signature_only_for_matching_names (ctx : Context) (s : State) :
  (∃ evs, calls s (newCertificateAction ctx s).2 evs
          ∧ ∀ client req,
              EvSign client req ∈ evs →
              equal_ignoring_case (Get (Args ctx) 0) (Subject_CommonName (CsrPEM req))
              ∧ token_matches req
              ∧ EvCreateSignRequest (OTT req) ∈ evs)
  ∧ (∃ evs, calls s (signCertificateAction ctx s).2 evs
            ∧ ∀ client req,
                EvSign client req ∈ evs →
                token_matches req
                ∧ ∃ w w', pemutil_Read (Get (Args ctx) 0) w
                          = (inr (PEM_CertificateRequest (CsrPEM req)), w')).
Proof.
  unfold token_matches, equal_ignoring_case. split.
  - destruct (newCertificateAction ctx s) as [r s'] eqn:Hrun. simpl.
    revert Hrun. unfold newCertificateAction.
    exec; intros Hrun; simplify_eq; use_facts; name_all_calls;
      intros client req Hin; where_in Hin;
      try match goal with
          | Hno : ∀ client req, EvSign client req ∉ ?x, Hin : EvSign _ _ ∈ ?x |- _ =>
              by destruct (Hno _ _ Hin)
          end.
    all: flag_facts.
    all: match goal with
         | Hall : Forall (identity_checked _ _) ?x, Hin : _ ∈ ?x |- _ =>
             rewrite Forall_forall in Hall; apply Hall in Hin;
             destruct Hin as (Hcsr & Hott & Hmatch); simpl in Hcsr, Hott;
             rewrite Hcsr, Hott
         end.
    all: split; [done|]; split; [done|].
    all: rewrite ?elem_of_app, ?elem_of_cons; eauto.
  - destruct (signCertificateAction ctx s) as [r s'] eqn:Hrun. simpl.
    revert Hrun. unfold signCertificateAction.
    exec; intros Hrun; simplify_eq; use_facts; name_all_calls;
      intros client req Hin; where_in Hin;
      try match goal with
          | Hno : ∀ client req, EvSign client req ∉ ?x, Hin : EvSign _ _ ∈ ?x |- _ =>
              by destruct (Hno _ _ Hin)
          end.
    all: match goal with
         | Hall : Forall (identity_checked _ _) ?x, Hin : _ ∈ ?x |- _ =>
             rewrite Forall_forall in Hall; apply Hall in Hin;
             destruct Hin as (Hcsr & Hott & Hmatch); simpl in Hcsr, Hott;
             rewrite Hcsr, Hott
         end.
    all: eauto.
Qed.

(** ** X11: an explicit token is used as it is *)

(** X11.  With an explicit token, neither operation enters the token flow:
    nobody is prompted and no token is requested from the issuer. *)
Theorem explicit_token_skips_token_flow (ctx : Context) (s : State) :
  ctx_String ctx "token" ≠ "" →
  (∃ evs, calls s (newCertificateAction ctx s).2 evs
          ∧ List.filter is_token_flow evs = [])
  ∧ (∃ evs, calls s (signCertificateAction ctx s).2 evs
            ∧ List.filter is_token_flow evs = []).
Proof.
  intros Htoken. split.
  - destruct (newCertificateAction ctx s) as [r s'] eqn:Hrun. simpl.
    revert Hrun. unfold newCertificateAction.
    exec; intros Hrun; simplify_eq; flag_facts; try done;
      use_facts; name_all_calls; by count_calls.
  - destruct (signCertificateAction ctx s) as [r s'] eqn:Hrun. simpl.
    revert Hrun. unfold signCertificateAction.
    exec; intros Hrun; simplify_eq; flag_facts; try done;
      use_facts; name_all_calls; by count_calls.
Qed.

(** ** X12: the paths are reported exactly on success *)

(** X12.  The new-certificate operation reports the path of the certificate
    and the path of the key exactly when it succeeds, and the sign operation
    reports the path of the certificate exactly when it succeeds: on any
    error nothing is reported as written. *)
Theorem paths_reported_iff_success (ctx : Context) (s : State) :
  (∃ evs, calls s (newCertificateAction ctx s).2 evs
          ∧ ((newCertificateAction ctx s).1 = inr ()
             ↔ EvPrintSelected "Certificate" (Get (Args ctx) 1) ∈ evs)
          ∧ ((newCertificateAction ctx s).1 = inr ()
             ↔ EvPrintSelected "Private Key" (Get (Args ctx) 2) ∈ evs))
  ∧ (∃ evs, calls s (signCertificateAction ctx s).2 evs
            ∧ ((signCertificateAction ctx s).1 = inr ()
               ↔ EvPrintSelected "Certificate" (Get (Args ctx) 1) ∈ evs)).
Proof.
  split.
  - destruct (newCertificateAction ctx s) as [r s'] eqn:Hrun. simpl.
    revert Hrun. unfold newCertificateAction.
    exec; intros Hrun; simplify_eq; use_facts; on_success; name_all_calls.
    all: repeat split; intros Hin.
    all: try discriminate Hin.
    all: try (rewrite ?elem_of_app, ?elem_of_cons; by intuition eauto).
    all: where_in Hin.
    all: try match goal with
             | Hno : ∀ label value, EvPrintSelected label value ∉ ?x,
               Hin : EvPrintSelected _ _ ∈ ?x |- _ =>
                 by destruct (Hno _ _ Hin)
             | Hca : ∀ label value, EvPrintSelected label value ∈ ?x → label = "CA",
               Hin : EvPrintSelected _ _ ∈ ?x |- _ =>
                 by apply Hca in Hin
             | Hok : ∀ label value, EvPrintSelected label value ∈ ?x → _ = inr () ∧ _,
               Hin : EvPrintSelected _ _ ∈ ?x |- _ =>
                 by apply Hok in Hin as [? _]
             end.
  - destruct (signCertificateAction ctx s) as [r s'] eqn:Hrun. simpl.
    revert Hrun. unfold signCertificateAction.
    exec; intros Hrun; simplify_eq; use_facts; on_success; name_all_calls.
    all: repeat split; intros Hin.
    all: try discriminate Hin.
    all: try (rewrite ?elem_of_app, ?elem_of_cons; by intuition eauto).
    all: where_in Hin.
    all: try match goal with
             | Hno : ∀ label value, EvPrintSelected label value ∉ ?x,
               Hin : EvPrintSelected _ _ ∈ ?x |- _ =>
                 by destruct (Hno _ _ Hin)
             | Hca : ∀ label value, EvPrintSelected label value ∈ ?x → label = "CA",
               Hin : EvPrintSelected _ _ ∈ ?x |- _ =>
                 by apply Hca in Hin
             end.
Qed.

(** ** X13: a validity flag that does not parse *)

(** X13.  In the direct-token flow of the new-certificate operation the
    validity flags are only parsed after the key pair was generated and the
    hostname checked: a [--not-before] that does not parse is then reported
    as an invalid flag value, with a key pair generated but nothing written
    and no authority contacted.  In the token flow it is reported before a
    token is requested and before any key is generated. *)
Theorem unparsable_validity_flag (ctx : Context) (s : State) :
  errs_NumberOfArguments ctx 3 = None →
  ctx_Bool ctx "offline" = false →
  (∀ req pk w t,
     ctx_String ctx "token" ≠ "" →
     ctx_StringSlice ctx "san" = [] →
     ca_CreateSignRequest (ctx_String ctx "token") (world s) = (inr (req, pk), w) →
     equal_ignoring_case (Get (Args ctx) 0) (Subject_CommonName (CsrPEM req)) →
     flags_ParseTimeOrDuration w (ctx_String ctx "not-before") = (t, false) →
     newCertificateAction ctx s
     = (inl (InvalidFlagValue "not-before" (ctx_String ctx "not-before") ""),
        {| world := w;
           trace := trace s ++ [EvCreateSignRequest (ctx_String ctx "token")] |}))
  ∧ (∀ t,
       ctx_String ctx "token" = "" →
       ctx_String ctx "ca-url" ≠ "" →
       ctx_String ctx "root" ≠ "" →
       flags_ParseTimeOrDuration (world s) (ctx_String ctx "not-before") = (t, false) →
       newCertificateAction ctx s
       = (inl (InvalidFlagValue "not-before" (ctx_String ctx "not-before") ""), s)).
Proof.
  unfold equal_ignoring_case. intros Hargs Hoff. split.
  - intros req pk w t Htoken%len_nonzero Hsan Hreq Heq Hnb.
    unfold newCertificateAction, signCertificateRequest. unfold_M.
    rewrite Hargs, Hoff, Hsan. simpl. decide_tests. simpl.
    rewrite Hreq. simpl. decide_tests. simpl. by rewrite Hnb.
  - intros t Htoken Hurl%len_nonzero Hroot%len_nonzero Hnb.
    unfold newCertificateAction, signCertificateTokenFlow. unfold_M.
    rewrite Hargs, Hoff, Htoken. simpl. decide_tests. simpl. by rewrite Hnb.
Qed.

(** ** X14: the token is requested for the name given *)

(** X14.  The new-certificate operation requests a token only when no
    token was given and offline mode is not selected, and then for its
    hostname argument (when that is not empty) and with the SANs of
    [--san]; the sign operation requests a token only when no token was
    given, and then for the common name of the request read from its file
    (when that is not empty). *)
Theorem token_requested_for_given_name (ctx : Context) (s : State) :
  (∃ evs, calls s (newCertificateAction ctx s).2 evs
          ∧ ∀ subject sans caURL root notBefore notAfter,
              EvNewTokenFlow subject sans caURL root notBefore notAfter ∈ evs →
              ctx_String ctx "token" = ""
              ∧ ctx_Bool ctx "offline" = false
              ∧ (Get (Args ctx) 0 ≠ "" → subject = Get (Args ctx) 0)
              ∧ sans = ctx_StringSlice ctx "san")
  ∧ (∃ evs, calls s (signCertificateAction ctx s).2 evs
            ∧ ∀ subject sans caURL root notBefore notAfter,
                EvNewTokenFlow subject sans caURL root notBefore notAfter ∈ evs →
                ctx_String ctx "token" = ""
                ∧ ∃ csr w w',
                    pemutil_Read (Get (Args ctx) 0) w
                    = (inr (PEM_CertificateRequest csr), w')
                    ∧ (Subject_CommonName csr ≠ "" →
                       subject = Subject_CommonName csr)).
Proof.
  split.
  - destruct (newCertificateAction ctx s) as [r s'] eqn:Hrun. simpl.
    revert Hrun. unfold newCertificateAction.
    exec; intros Hrun; simplify_eq; use_facts; name_all_calls;
      intros subject sans caURL root notBefore notAfter Hin; where_in Hin;
      flag_facts.
    all: try match goal with
             | Hnone : List.filter ?f ?x = [], Hin : ?ev ∈ ?x |- _ =>
                 assert (Hhere : ev ∈ List.filter f x)
                   by (apply list_elem_of_In, List.filter_In; split;
                       [by apply list_elem_of_In|reflexivity]);
                 rewrite Hnone in Hhere; by apply elem_of_nil in Hhere
             end.
    all: match goal with
         | Hall : Forall (token_flow_call _ _ _) ?x, Hin : _ ∈ ?x |- _ =>
             rewrite Forall_forall in Hall; apply Hall in Hin;
             destruct Hin as (Hsub & Hsans & _)
         end.
    all: by eauto.
  - destruct (signCertificateAction ctx s) as [r s'] eqn:Hrun. simpl.
    revert Hrun. unfold signCertificateAction.
    exec; intros Hrun; simplify_eq; use_facts; name_all_calls;
      intros subject sans caURL root notBefore notAfter Hin; where_in Hin;
      flag_facts.
    all: try match goal with
             | Hnone : List.filter ?f ?x = [], Hin : ?ev ∈ ?x |- _ =>
                 assert (Hhere : ev ∈ List.filter f x)
                   by (apply list_elem_of_In, List.filter_In; split;
                       [by apply list_elem_of_In|reflexivity]);
                 rewrite Hnone in Hhere; by apply elem_of_nil in Hhere
             end.
    all: match goal with
         | Hall : Forall (token_flow_call _ _ _) ?x, Hin : _ ∈ ?x |- _ =>
             rewrite Forall_forall in Hall; apply Hall in Hin;
             destruct Hin as (Hsub & Hsans & _)
         end.
    all: by eauto 10.
Qed.

End Actions.

(** * The properties at work in the small world *)

#[local] Existing Instance Toy.collaborators.

Lemma offline_with_token_is_incompatible_witness :
  newCertificateAction Toy.offline_token Toy.start
    = (inl (IncompatibleFlagWithFlag "offline" "token"), Toy.start)
  ∧ ConfigurationError (IncompatibleFlagWithFlag "offline" "token")
  ∧ ∀ evs, calls Toy.start (newCertificateAction Toy.offline_token Toy.start).2 evs →
           evs = [].
Proof.
  apply (offline_with_token_is_incompatible Toy.offline_token Toy.start).
  - reflexivity.
  - reflexivity.
  - vm_compute. discriminate.
Defined.

Lemma token_with_san_is_exclusive_witness :
  newCertificateAction Toy.token_san Toy.start
    = (inl (MutuallyExclusiveFlags "token" "san"), Toy.start)
  ∧ MutuallyExclusiveOptionsError (MutuallyExclusiveFlags "token" "san")
  ∧ ∀ evs, calls Toy.start (newCertificateAction Toy.token_san Toy.start).2 evs →
           Forall (λ ev, is_network ev = false) evs.
Proof.
  apply (token_with_san_is_exclusive Toy.token_san Toy.start).
  - reflexivity.
  - reflexivity.
  - vm_compute. discriminate.
  - vm_compute. discriminate.
Defined.

(** C1 (as stated) fails: with offline mode selected as well, the same
    invocation is refused with the incompatible-flags error instead. *)
Lemma token_with_san_offline_counterexample :
  errs_NumberOfArguments Toy.offline_token_san 3 = None
  ∧ len (ctx_String Toy.offline_token_san "token") ≠ 0%nat
  ∧ ctx_StringSlice Toy.offline_token_san "san" ≠ []
  ∧ ¬ ∃ e s', newCertificateAction Toy.offline_token_san Toy.start = (inl e, s')
              ∧ MutuallyExclusiveOptionsError e.
Proof.
  split; [reflexivity|]. split; [vm_compute; discriminate|].
  split; [vm_compute; discriminate|].
  intros (e & s' & Hrun & f1 & f2 & ->).
  vm_compute in Hrun. discriminate.
Qed.

Lemma offline_needs_config_witness :
  signCertificateOfflineFlow Toy.offline_no_config
      "internal.example.com" "internal.crt" "internal.key" Toy.start
    = (inl (InvalidFlagValue "ca-config" "" ""), Toy.start).
Proof.
  apply (offline_needs_config Toy.offline_no_config
           "internal.example.com" "internal.crt" "internal.key" Toy.start).
  reflexivity.
Defined.

Lemma other_pem_is_rejected_witness :
  signCertificateAction Toy.sign_crt Toy.start
    = (inl (NotACertificateRequest "internal.crt"),
       Toy.after [EvRead "internal.crt"]).
Proof.
  apply (other_pem_is_rejected Toy.sign_crt Toy.start (PEM_Certificate {| cert_Raw := "leaf" |}) ()).
  - reflexivity.
  - reflexivity.
  - discriminate.
Defined.

Lemma subject_must_match_common_name_witness :
  (∀ e s',
     signCertificateRequest Toy.same_name "internal.example.com"
       (Toy.csr_for "Internal.Example.COM") "internal.crt" Toy.start = (inl e, s') →
     ¬ SubjectMismatchError e)
  ∧ signCertificateRequest Toy.same_name "internal.example.com"
      (Toy.csr_for "other.example.com") "internal.crt" Toy.start
    = (inl (CommonNameMismatch "internal.example.com" "other.example.com"),
       Toy.start).
Proof.
  split.
  - apply (subject_must_match_common_name Toy.same_name "internal.example.com"
             (Toy.csr_for "Internal.Example.COM") "internal.crt" Toy.start 0 0
             "internal.example.com"
             {| SHA := ""; Subject := "internal.example.com";
                Audience := ["step-ca"] |});
      reflexivity.
  - apply (subject_must_match_common_name Toy.same_name "internal.example.com"
             (Toy.csr_for "other.example.com") "internal.crt" Toy.start 0 0
             "internal.example.com"
             {| SHA := ""; Subject := "internal.example.com";
                Audience := ["step-ca"] |});
      try reflexivity.
    vm_compute. discriminate.
Defined.

Lemma hostname_must_match_common_name_witness :
  newCertificateAction Toy.other_name Toy.start
    = (inl (HostnameMismatch "internal.example.com" "other.example.com"),
       Toy.after [EvCreateSignRequest "internal.example.com"])
  ∧ newCertificateAction Toy.same_name Toy.start
    = after_identity_check Toy.same_name "internal.example.com"
        (Toy.request_for "internal.example.com" "internal.example.com")
        Toy.fresh_key
        (Toy.after [EvCreateSignRequest "internal.example.com"]).
Proof.
  split.
  - apply (hostname_must_match_common_name Toy.other_name Toy.start
             (Toy.request_for "internal.example.com" "internal.example.com")
             Toy.fresh_key ());
      try reflexivity.
    + vm_compute. discriminate.
    + vm_compute. discriminate.
  - apply (hostname_must_match_common_name Toy.same_name Toy.start
             (Toy.request_for "internal.example.com" "internal.example.com")
             Toy.fresh_key ());
      try reflexivity.
    vm_compute. discriminate.
Defined.

Lemma pinned_mode_is_selected_witness :
  signCertificateRequest
    (set_String (set_String Toy.bootstrap "ca-url" "https://elsewhere.example.com")
                "root" "other_root.crt")
    "boot.example.com" (Toy.csr_for "boot.example.com") "boot.crt" Toy.start
  = signCertificateRequest Toy.bootstrap
      "boot.example.com" (Toy.csr_for "boot.example.com") "boot.crt" Toy.start.
Proof.
  apply (pinned_mode_is_selected Toy.bootstrap "boot.example.com"
           (Toy.csr_for "boot.example.com") "boot.crt" Toy.start
           "boot.example.com"
           {| SHA := "c0ffee"; Subject := "boot.example.com";
              Audience := ["HTTPS://ca.example.com/1.0/sign"] |}
           "HTTPS://ca.example.com/1.0/sign" []).
  - reflexivity.
  - reflexivity.
  - discriminate.
  - reflexivity.
  - reflexivity.
Defined.

Lemma artifacts_are_chain_and_key_mode_0600_witness :
  ∃ evs resp data pk,
    calls Toy.start (newCertificateAction Toy.bootstrap Toy.start).2 evs
    ∧ issued_in evs resp
    ∧ certificate_chain resp data
    ∧ generated_in evs pk
    ∧ List.filter is_write evs
      = [EvWriteFile "boot.crt" data mode_0600;
         EvSerializeToFile pk "boot.key" mode_0600].
Proof.
  apply (proj1 artifacts_are_chain_and_key_mode_0600 Toy.bootstrap Toy.start).
  reflexivity.
Defined.

Lemma mismatch_leaves_no_artifact_witness :
  ∃ evs pk,
    calls Toy.start (newCertificateAction Toy.other_name Toy.start).2 evs
    ∧ generated_in evs pk
    ∧ List.filter is_write evs = []
    ∧ ¬ equal_ignoring_case "other.example.com" "internal.example.com"
    ∧ "other.example.com" = "other.example.com".
Proof.
  apply (proj2 (mismatch_leaves_no_artifact Toy.other_name Toy.start)
           "internal.example.com" "other.example.com").
  reflexivity.
Defined.

(** C8 (as stated) fails: with [--not-before] later than [--not-after], the
    request is sent with both bounds set and not ordered. *)
Lemma validity_bounds_unordered_counterexample :
  ∃ client req,
    EvSign client req ∈ trace (newCertificateAction Toy.reversed_validity Toy.start).2
    ∧ ¬ validity_ordered req.
Proof.
  eexists _, _. split.
  - vm_compute. do 3 apply list_elem_of_further. apply list_elem_of_here.
  - unfold validity_ordered. simpl. intros Hord.
    specialize (Hord eq_refl eq_refl). vm_compute in Hord. by apply Hord.
Qed.

Lemma file_mode_is_selected_witness :
  ∃ evs,
    calls Toy.start
      (signCertificateRequest Toy.same_name "internal.example.com"
         (Toy.csr_for "internal.example.com") "internal.crt" Toy.start).2 evs
    ∧ Forall (file_call Toy.same_name ()) evs.
Proof.
  apply (file_mode_is_selected Toy.same_name "internal.example.com"
           (Toy.csr_for "internal.example.com") "internal.crt" Toy.start
           "internal.example.com" Toy.plain_claims).
  - reflexivity.
  - reflexivity.
  - left. reflexivity.
Defined.

Lemma file_mode_requires_url_and_root_witness :
  signCertificateRequest Toy.other_name "internal.example.com"
    (Toy.csr_for "internal.example.com") "internal.crt" Toy.start
  = (inl (RequiredFlag "ca-url"), Toy.start)
  ∧ signCertificateRequest Toy.no_root "internal.example.com"
      (Toy.csr_for "internal.example.com") "internal.crt" Toy.start
    = (inl (RequiredFlag "root"),
       Toy.after [EvStat "/home/step/certs/root_ca.crt"]).
Proof.
  split.
  - apply (file_mode_requires_url_and_root Toy.other_name "internal.example.com"
             (Toy.csr_for "internal.example.com") "internal.crt" Toy.start 0 0
             "internal.example.com" Toy.plain_claims);
      try reflexivity.
    left. reflexivity.
  - apply (file_mode_requires_url_and_root Toy.no_root "internal.example.com"
             (Toy.csr_for "internal.example.com") "internal.crt" Toy.start 0 0
             "internal.example.com" Toy.plain_claims)
      with (err := "no such file");
      try reflexivity.
    + left. reflexivity.
    + vm_compute. discriminate.
Defined.

Lemma validation_precedes_exchange_witness :
  ∃ evs,
    calls Toy.start
      (signCertificateRequest Toy.same_name "internal.example.com"
         (Toy.csr_for "other.example.com") "internal.crt" Toy.start).2 evs
    ∧ Forall (λ ev, is_exchange ev = false ∧ is_write ev = false) evs.
Proof.
  apply (validation_precedes_exchange Toy.same_name "internal.example.com"
           (Toy.csr_for "other.example.com") "internal.crt" Toy.start
           (CommonNameMismatch "internal.example.com" "other.example.com")).
  - reflexivity.
  - intros err. discriminate.
Defined.

Lemma offline_never_contacts_network_witness :
  ∃ evs,
    calls Toy.start (newCertificateAction Toy.offline_config Toy.start).2 evs
    ∧ List.filter is_network evs = [].
Proof.
  apply (offline_never_contacts_network Toy.offline_config Toy.start).
  reflexivity.
Defined.

Lemma explicit_token_skips_token_flow_witness :
  (∃ evs, calls Toy.start (newCertificateAction Toy.same_name Toy.start).2 evs
          ∧ List.filter is_token_flow evs = [])
  ∧ (∃ evs, calls Toy.start (signCertificateAction Toy.sign_csr Toy.start).2 evs
            ∧ List.filter is_token_flow evs = []).
Proof.
  split.
  - apply (explicit_token_skips_token_flow Toy.same_name Toy.start).
    vm_compute. discriminate.
  - apply (explicit_token_skips_token_flow Toy.sign_csr Toy.start).
    vm_compute. discriminate.
Defined.

Lemma unparsable_validity_flag_witness :
  newCertificateAction Toy.bad_validity Toy.start
  = (inl (InvalidFlagValue "not-before" "yesterday" ""),
     Toy.after [EvCreateSignRequest "internal.example.com"])
  ∧ newCertificateAction Toy.bad_validity_no_token Toy.start
    = (inl (InvalidFlagValue "not-before" "yesterday" ""), Toy.start).
Proof.
  split.
  - apply (proj1 (unparsable_validity_flag Toy.bad_validity Toy.start
                    eq_refl eq_refl)
             (Toy.request_for "internal.example.com" "internal.example.com")
             Toy.fresh_key () 0);
      try reflexivity.
    vm_compute. discriminate.
  - apply (proj2 (unparsable_validity_flag Toy.bad_validity_no_token Toy.start
                    eq_refl eq_refl) 0);
      try reflexivity.
    + vm_compute. discriminate.
    + vm_compute. discriminate.
Defined.
